(** * Reddit MCP: a shallow embedding of [mcp_reddit/reddit_fetcher.py]

    The module exposes three tool operations over an external Reddit client
    and turns the client's answers into text.  Python values are modelled as
    follows: [str] as [string], [int] as [Z], [Optional[T]] as [option T],
    [list] as [list]; the external client is a record of oracles; exceptions,
    client calls and log records are threaded through a small trace-and-error
    monad. *)

From Stdlib Require Import ZArith List Bool Ascii String DecimalString Lia.
Import ListNotations.

Open Scope string_scope.

(** ** Python string primitives *)

(** [str(n)] for an [int]. *)
Definition str_int (z : Z) : string := NilZero.string_of_int (Z.to_int z).

(** [str(len(l))]. *)
Definition str_len {A} (l : list A) : string :=
  str_int (Z.of_nat (List.length l)).

(** [sep.join(l)]. *)
Fixpoint join (sep : string) (l : list string) : string :=
  match l with
  | [] => ""
  | [x] => x
  | x :: xs => x ++ sep ++ join sep xs
  end.

(** [s * n] for a [str] and a non-negative count. *)
Fixpoint str_mul (s : string) (n : nat) : string :=
  match n with
  | O => ""
  | S k => s ++ str_mul s k
  end.

(** [x or default] for an [Optional[str]]: [None] and the empty string are
    both falsy. *)
Definition str_or (x : option string) (default : string) : string :=
  match x with
  | None => default
  | Some "" => default
  | Some s => s
  end.

(** An [Optional[str]] interpolated in an f-string: [None] prints as the
    four letters of its name. *)
Definition fmt_optional (x : option string) : string :=
  match x with
  | None => "None"
  | Some s => s
  end.

(** Line feed, as written [\n] in the source. *)
Definition LF : string := String (ascii_of_nat 10) "".

(** ** Observations on texts *)

(** [s.startswith(pat)] *)
Fixpoint startswith (s pat : string) {struct pat} : bool :=
  match pat with
  | EmptyString => true
  | String a pat' =>
      match s with
      | EmptyString => false
      | String b s' => Ascii.eqb a b && startswith s' pat'
      end
  end.

(** Number of positions of [s] at which [pat] occurs, for a non-empty
    [pat].  [s.count(pat)] skips occurrences that overlap an earlier one;
    the two numbers agree when no two occurrences overlap. *)
Fixpoint occurrences (pat s : string) : nat :=
  match s with
  | EmptyString => 0
  | String _ rest =>
      (if startswith s pat then 1 else 0) + occurrences pat rest
  end.

(** Occurrences of the separator the post blocks end with. *)
Definition count_sep (s : string) : nat := occurrences "---" s.

Definition is_dash (c : ascii) : bool := Ascii.eqb "-" c.

(** The text does not begin with a dash. *)
Definition head_ok (s : string) : bool :=
  match s with
  | EmptyString => true
  | String c _ => negb (is_dash c)
  end.

(** The text does not end with a dash. *)
Fixpoint last_ok (s : string) : bool :=
  match s with
  | EmptyString => true
  | String c EmptyString => negb (is_dash c)
  | String _ rest => last_ok rest
  end.

(** The text has no dash at all. *)
Fixpoint no_dash (s : string) : bool :=
  match s with
  | EmptyString => true
  | String c rest => negb (is_dash c) && no_dash rest
  end.

(** ** Data model *)

(** The runtime class of a submission, as [isinstance] sees it.  The three
    library classes carry the attribute the formatter reads from them;
    anything else is [OtherPost]. *)
Inductive post_class :=
| LinkPost
| TextPost (body : string)
| GalleryPost (gallery_link : string)
| OtherPost.

(** A comment and a node of the comment tree ([node.value],
    [node.children]). *)
Module comment.
Record t := {
  author_display_name : option string;
  score : Z;
  body : string
}.
End comment.

#[local] Unset Elimination Schemes.
Inductive CommentNode :=
| Node (value : comment.t) (children : list CommentNode).

#[local] Set Elimination Schemes.

Definition value (n : CommentNode) : comment.t :=
  match n with Node v _ => v end.

Definition children (n : CommentNode) : list CommentNode :=
  match n with Node _ ch => ch end.

(** ** Exceptions, traces and the effect monad *)

(** The classes of exceptions the handlers of the module tell apart:
    [AttributeError]; any other class that derives from [Exception]; and
    the classes that derive from [BaseException] only
    ([asyncio.CancelledError], [KeyboardInterrupt], [SystemExit]), which
    [except Exception] does not catch.  [exn_str] is [str(e)]. *)
Inductive exn_class := AttributeError | OtherError | BaseOnly.

Record exn := { exn_cls : exn_class; exn_str : string }.

Definition is_AttributeError (e : exn) : bool :=
  match exn_cls e with
  | AttributeError => true
  | OtherError | BaseOnly => false
  end.

(** [isinstance(e, Exception)] *)
Definition is_Exception (e : exn) : bool :=
  match exn_cls e with
  | AttributeError | OtherError => true
  | BaseOnly => false
  end.

(** The three listing methods [.new], [.hot], [.top] of a pull API. *)
Inductive SortMode := New | Hot | Top.

(** The calls the module makes on the external client, with their
    arguments. *)
Inductive client_call :=
| UserSubmissions (m : SortMode) (username : string) (limit : Z)
| AccountSubmissions (m : SortMode) (username : string) (limit : Z)
| SubredditSearch (sr query sort : string) (limit : Z)
| SubredditHot (subreddit : string) (limit : Z)
| SubmissionFetch (post_id : string)
| CommentTreeFetch (post_id sort : string) (limit depth : Z).

(** What an operation does besides returning: calls on the client, steps of
    an [async for] (where the client's lazy pagination reaches the network),
    and [logging.error] records. *)
Inductive event :=
| Called (c : client_call)
| Next
| LogError (msg : string).

Inductive outcome (A : Type) :=
| Ret (a : A)
| Raise (e : exn).
Arguments Ret {A} a.
Arguments Raise {A} e.

(** A computation yields the events it performed, in order, and either a
    value or the exception it raised. *)
Definition M (A : Type) : Type := list event * outcome A.

Definition ret {A} (a : A) : M A := ([], Ret a).

Definition raise {A} (e : exn) : M A := ([], Raise e).

Definition bind {A B} (m : M A) (k : A -> M B) : M B :=
  match m with
  | (t, Ret a) => let (t', r) := k a in ((t ++ t')%list, r)
  | (t, Raise e) => (t, Raise e)
  end.

Notation "x <- m ;; k" := (bind m (fun x => k))
  (at level 61, m at next level, right associativity).
Notation "m ;;; k" := (bind m (fun _ => k))
  (at level 61, right associativity).

Definition emit (ev : event) : M unit := ([ev], Ret tt).

(** A call on the client: the call is recorded, the client decides the
    outcome. *)
Definition call {A} (c : client_call) (answer : outcome A) : M A :=
  ([Called c], answer).

(** [try: m  except <class> as e: h e], for the exceptions [catches]
    accepts. *)
Definition try_except {A} (m : M A) (catches : exn -> bool) (h : exn -> M A)
  : M A :=
  match m with
  | (t, Raise e) =>
      if catches e then let (t', r) := h e in ((t ++ t')%list, r)
      else (t, Raise e)
  | (t, Ret a) => (t, Ret a)
  end.

Definition trace {A} (m : M A) : list event := fst m.
Definition result {A} (m : M A) : outcome A := snd m.

(** ** Process start: credentials *)

(** The process environment, as [os.getenv] reads it. *)
Definition environ := string -> option string.

Definition getenv (env : environ) (name : string) : option string := env name.

(** Truthiness of an [Optional[str]]. *)
Definition truthy (x : option string) : bool :=
  match x with
  | None => false
  | Some "" => false
  | Some _ => true
  end.

(** [[x for x in l if x]]: the values kept are strings. *)
Fixpoint keep_truthy (l : list (option string)) : list string :=
  match l with
  | [] => []
  | x :: rest =>
      if truthy x
      then match x with
           | Some s => s :: keep_truthy rest
           | None => keep_truthy rest
           end
      else keep_truthy rest
  end.

Definition REDDIT_CLIENT_ID (env : environ) := getenv env "REDDIT_CLIENT_ID".
Definition REDDIT_CLIENT_SECRET (env : environ) :=
  getenv env "REDDIT_CLIENT_SECRET".
Definition REDDIT_REFRESH_TOKEN (env : environ) :=
  getenv env "REDDIT_REFRESH_TOKEN".

Definition CREDS (env : environ) : list string :=
  keep_truthy
    [REDDIT_CLIENT_ID env; REDDIT_CLIENT_SECRET env; REDDIT_REFRESH_TOKEN env].

(** [Client( *CREDS )]: the positional arguments the constructor receives. *)
Definition client_positional_args (env : environ) : list string := CREDS env.

(** ** Comment tree formatter *)

(** [_format_comment_tree]: the loop over [children] appends to [content]. *)
Fixpoint _format_comment_tree (comment_node : CommentNode) (depth : nat)
  : string :=
  let comment := value comment_node in
  let indent := str_mul "-- " depth in
  let content :=
    indent ++ "* Author: "
      ++ str_or (comment.author_display_name comment) "[deleted]" ++ LF
    ++ indent ++ "  Score: " ++ str_int (comment.score comment) ++ LF
    ++ indent ++ "  " ++ comment.body comment ++ LF in
  match comment_node with
  | Node _ ch =>
      fold_left
        (fun content child =>
           content ++ LF ++ _format_comment_tree child (S depth))
        ch content
  end.

Section Fetcher.

(** [datetime] values and the one use the module makes of them,
    [created_at.strftime('%Y-%m-%d %H:%M:%S UTC')], belong to the Python
    library. *)
Context {datetime : Type}.
Variable strftime_utc : datetime -> string.

(** A fetched submission, with the attributes the module reads.

    Modelled from the spec: the classes of the imported library are not in
    the repository; the spec gives a link post a target, beside the
    permalink every submission has.  [link] is that target, absent on other
    posts; the module never reads it. *)
Record Submission := {
  link : option string;
  title : string;
  subreddit_name : string;
  score : Z;
  comment_count : Z;
  created_at : option datetime;
  author_display_name : option string;
  permalink : string;
  id36 : string;
  cls : post_class
}.

(** An asynchronous iterator of submissions: it yields, ends, or raises
    while it is advanced. *)
Inductive aiter :=
| Exhausted
| Yield (submission : Submission) (rest : aiter)
| Broken (e : exn).

(** The comment tree a fetch returns: only its top-level [children] are
    read. *)
Record CommentTree := { tree_children : list CommentNode }.

(** The external client, as far as the module depends on it.  A pull method
    answers with an iterator or with [None]. *)
Record Client := {
  user_pull_submissions :
    SortMode -> string -> Z -> outcome (option aiter);
  account_pull_submissions :
    SortMode -> string -> Z -> outcome (option aiter);
  subreddit_pull_search :
    string -> string -> string -> Z -> outcome (option aiter);
  subreddit_pull_hot : string -> Z -> outcome aiter;
  submission_fetch : string -> outcome Submission;
  comment_tree_fetch : string -> string -> Z -> Z -> outcome CommentTree
}.

(** [_get_post_type] *)
Definition _get_post_type (submission : Submission) : string :=
  match cls submission with
  | LinkPost => "link"
  | TextPost _ => "text"
  | GalleryPost _ => "gallery"
  | OtherPost => "unknown"
  end.

(** [_get_content]; [str(gallery_link)] is carried by the class. *)
Definition _get_content (submission : Submission) : option string :=
  match cls submission with
  | LinkPost => Some (permalink submission)
  | TextPost body => Some body
  | GalleryPost gallery_link => Some gallery_link
  | OtherPost => None
  end.

(** The submissions an iterator yields before it ends or raises, and the
    exception it raises, if any. *)
Fixpoint yielded (it : aiter) : list Submission :=
  match it with
  | Exhausted => []
  | Yield submission rest => submission :: yielded rest
  | Broken _ => []
  end.

Fixpoint fault (it : aiter) : option exn :=
  match it with
  | Exhausted => None
  | Yield _ rest => fault rest
  | Broken e => Some e
  end.

(** An iterator over a list that ends without raising. *)
Fixpoint iter_of (l : list Submission) : aiter :=
  match l with
  | [] => Exhausted
  | submission :: rest => Yield submission (iter_of rest)
  end.

(** ** The operations *)

(** [async for submission in it: posts.append(post_info)].  Each step asks
    the iterator for its next item. *)
Fixpoint async_for (post_info : Submission -> string) (it : aiter)
    (posts : list string) : M (list string) :=
  match it with
  | Exhausted => emit Next ;;; ret posts
  | Yield submission rest =>
      emit Next ;;;
      async_for post_info rest (posts ++ [post_info submission])%list
  | Broken e => emit Next ;;; raise e
  end.

(** The [created_time] line of [fetch_user_latest_posts]: present when the
    submission has a [created_at]. *)
Definition created_time (submission : Submission) : string :=
  match created_at submission with
  | Some t => "Posted: " ++ strftime_utc t ++ LF
  | None => EmptyString
  end.

(** [post_info] of [fetch_user_latest_posts]. *)
Definition user_post_info (submission : Submission) : string :=
  "Title: " ++ title submission ++ LF
  ++ "Subreddit: r/" ++ subreddit_name submission ++ LF
  ++ "Score: " ++ str_int (score submission) ++ LF
  ++ "Comments: " ++ str_int (comment_count submission) ++ LF
  ++ created_time submission
  ++ "Type: " ++ _get_post_type submission ++ LF
  ++ "Content: " ++ fmt_optional (_get_content submission) ++ LF
  ++ "Link: https://reddit.com" ++ permalink submission ++ LF
  ++ "Post ID: " ++ id36 submission ++ LF
  ++ "---".

(** [post_info] of [fetch_reddit_hot_threads]. *)
Definition hot_post_info (submission : Submission) : string :=
  "Title: " ++ title submission ++ LF
  ++ "Score: " ++ str_int (score submission) ++ LF
  ++ "Comments: " ++ str_int (comment_count submission) ++ LF
  ++ "Author: " ++ str_or (author_display_name submission) "[deleted]" ++ LF
  ++ "Type: " ++ _get_post_type submission ++ LF
  ++ "Content: " ++ fmt_optional (_get_content submission) ++ LF
  ++ "Link: https://reddit.com" ++ permalink submission ++ LF
  ++ "---".

(** The head of [fetch_reddit_post_content]'s text. *)
Definition post_header (submission : Submission) : string :=
  "Title: " ++ title submission ++ LF
  ++ "Score: " ++ str_int (score submission) ++ LF
  ++ "Author: " ++ str_or (author_display_name submission) "[deleted]" ++ LF
  ++ "Type: " ++ _get_post_type submission ++ LF
  ++ "Content: " ++ fmt_optional (_get_content submission) ++ LF.

Definition unable_text : string :=
  "Unable to access user posts API. RedditWarp API structure may have changed.".

Definition invalid_sort_text (sort : string) : string :=
  "Invalid sort method: " ++ sort ++ ". Use 'new', 'hot', or 'top'.".

Definition user_error_text (username : string) (e : exn) : string :=
  "An error occurred while fetching posts for " ++ username ++ ": "
  ++ exn_str e.

Definition error_text (e : exn) : string := "An error occurred: " ++ exn_str e.

(** Method 1 of [fetch_user_latest_posts]: the [client.p.user] structure.
    The value is [submission_iter] after the block. *)
Definition method1 (client : Client) (username : string) (limit : Z)
    (sort : string) : M (option aiter) :=
  try_except
    (if sort =? "new" then
       call (UserSubmissions New username limit)
            (user_pull_submissions client New username limit)
     else if sort =? "hot" then
       call (UserSubmissions Hot username limit)
            (user_pull_submissions client Hot username limit)
     else if sort =? "top" then
       call (UserSubmissions Top username limit)
            (user_pull_submissions client Top username limit)
     else ret None)
    is_AttributeError (fun _ => ret None).

(** Method 2: the [client.p.account] structure. *)
Definition method2 (client : Client) (username : string) (limit : Z)
    (sort : string) : M (option aiter) :=
  try_except
    (if sort =? "new" then
       call (AccountSubmissions New username limit)
            (account_pull_submissions client New username limit)
     else if sort =? "hot" then
       call (AccountSubmissions Hot username limit)
            (account_pull_submissions client Hot username limit)
     else if sort =? "top" then
       call (AccountSubmissions Top username limit)
            (account_pull_submissions client Top username limit)
     else ret None)
    is_AttributeError (fun _ => ret None).

(** Method 3: search for posts by author.  The handler's [return] leaves
    the function with a text: the left injection. *)
Definition method3 (client : Client) (username : string) (limit : Z)
    (sort : string) : M (string + option aiter) :=
  try_except
    (it <- call (SubredditSearch "all" ("author:" ++ username) sort limit)
                (subreddit_pull_search client "all" ("author:" ++ username)
                   sort limit) ;;
     ret (inr it))
    is_AttributeError (fun _ => ret (inl unable_text)).

(** The three methods in sequence, each tried while [submission_iter] is
    [None]. *)
Definition obtain_submission_iter (client : Client) (username : string)
    (limit : Z) (sort : string) : M (string + option aiter) :=
  submission_iter <- method1 client username limit sort ;;
  submission_iter <-
    match submission_iter with
    | None => method2 client username limit sort
    | Some _ => ret submission_iter
    end ;;
  match submission_iter with
  | None => method3 client username limit sort
  | Some _ => ret (inr submission_iter)
  end.

(** The [try] block of [fetch_user_latest_posts]. *)
Definition fetch_user_latest_posts_body (client : Client)
    (username : string) (limit : Z) (sort : string) : M string :=
  found <- obtain_submission_iter client username limit sort ;;
  match found with
  | inl text => ret text
  | inr None => ret (invalid_sort_text sort)
  | inr (Some it) =>
      posts <- async_for user_post_info it [] ;;
      match posts with
      | [] => ret ("No posts found for user: " ++ username)
      | _ :: _ =>
          ret ("Latest " ++ str_len posts ++ " posts from u/" ++ username
               ++ ":" ++ LF ++ LF ++ join (LF ++ LF) posts)
      end
  end.

(** [fetch_user_latest_posts] *)
Definition fetch_user_latest_posts (client : Client)
    (username : string) (limit : Z) (sort : string) : M string :=
  try_except (fetch_user_latest_posts_body client username limit sort)
    is_Exception
    (fun e =>
       emit (LogError (user_error_text username e)) ;;;
       ret (user_error_text username e)).

Definition fetch_reddit_hot_threads_body (client : Client)
    (subreddit : string) (limit : Z) : M string :=
  it <- call (SubredditHot subreddit limit)
             (subreddit_pull_hot client subreddit limit) ;;
  posts <- async_for hot_post_info it [] ;;
  ret (join (LF ++ LF) posts).

(** [fetch_reddit_hot_threads] *)
Definition fetch_reddit_hot_threads (client : Client)
    (subreddit : string) (limit : Z) : M string :=
  try_except (fetch_reddit_hot_threads_body client subreddit limit)
    is_Exception
    (fun e => emit (LogError (error_text e)) ;;; ret (error_text e)).

Definition fetch_reddit_post_content_body (client : Client)
    (post_id : string) (comment_limit comment_depth : Z) : M string :=
  submission <- call (SubmissionFetch post_id)
                     (submission_fetch client post_id) ;;
  let content := post_header submission in
  comments <- call (CommentTreeFetch post_id "top" comment_limit comment_depth)
                   (comment_tree_fetch client post_id "top"
                      comment_limit comment_depth) ;;
  match tree_children comments with
  | [] => ret (content ++ LF ++ "No comments found.")
  | _ :: _ =>
      ret (fold_left
             (fun content comment =>
                content ++ LF ++ _format_comment_tree comment 0)
             (tree_children comments)
             (content ++ LF ++ "Comments:" ++ LF))
  end.

(** [fetch_reddit_post_content] *)
Definition fetch_reddit_post_content (client : Client)
    (post_id : string) (comment_limit comment_depth : Z) : M string :=
  try_except
    (fetch_reddit_post_content_body client post_id comment_limit comment_depth)
    is_Exception
    (fun e => ret (error_text e)).

End Fetcher.

Arguments Submission : clear implicits.
Arguments aiter : clear implicits.
Arguments CommentTree : clear implicits.
Arguments Client : clear implicits.

(** What the credential loader is to forward of one variable: its value
    when it is set and not empty. *)
Definition forwarded (x : option string) : list string :=
  match x with
  | Some s => if s =? "" then [] else [s]
  | None => []
  end.

(** A text without the separator in it. *)
Definition sep_free (s : string) : Prop := count_sep s = 0.

Definition class_sep_free (c : post_class) : Prop :=
  match c with
  | TextPost body => sep_free body
  | GalleryPost gallery_link => sep_free gallery_link
  | LinkPost | OtherPost => True
  end.

Definition author_sep_free (a : option string) : Prop :=
  match a with
  | Some name => sep_free name
  | None => True
  end.

(** The texts [fetch_user_latest_posts] interpolates in a block have no
    separator in them. *)
Definition user_fields_sep_free {datetime} (strftime_utc : datetime -> string)
    (s : Submission datetime) : Prop :=
  sep_free (title s) /\ sep_free (subreddit_name s)
  /\ (forall t, created_at s = Some t -> sep_free (strftime_utc t))
  /\ class_sep_free (cls s) /\ sep_free (permalink s) /\ sep_free (id36 s).

(** The same for the block of [fetch_reddit_hot_threads]. *)
Definition hot_fields_sep_free {datetime} (s : Submission datetime) : Prop :=
  sep_free (title s) /\ author_sep_free (author_display_name s)
  /\ class_sep_free (cls s) /\ sep_free (permalink s).

(** A path that is passed over: it is missing or it answers [None]. *)
Definition passed_over {datetime} (o : outcome (option (aiter datetime)))
  : Prop :=
  o = Ret None \/ exists e, o = Raise e /\ is_AttributeError e = true.

(** For a sort that names the mode [m]: the client's access paths give the
    iterator [it] when it is the answer of the first path, in the order
    user, account, search, that is not passed over. *)
Inductive chain_gives {datetime} (client : Client datetime)
    (username : string) (limit : Z) (sort : string) (m : SortMode)
    (it : aiter datetime) : Prop :=
| by_user :
    user_pull_submissions client m username limit = Ret (Some it) ->
    chain_gives client username limit sort m it
| by_account :
    passed_over (user_pull_submissions client m username limit) ->
    account_pull_submissions client m username limit = Ret (Some it) ->
    chain_gives client username limit sort m it
| by_search :
    passed_over (user_pull_submissions client m username limit) ->
    passed_over (account_pull_submissions client m username limit) ->
    subreddit_pull_search client "all" ("author:" ++ username) sort limit
    = Ret (Some it) ->
    chain_gives client username limit sort m it.

(** The sort mode a [sort] argument names, if it names one. *)
Definition sort_mode (sort : string) : option SortMode :=
  if sort =? "new" then Some New
  else if sort =? "hot" then Some Hot
  else if sort =? "top" then Some Top
  else None.

(** The three lines a node contributes itself. *)
Definition own_lines (marker : string) (c : comment.t) (depth : nat)
  : string :=
  str_mul marker depth ++ "* Author: "
    ++ str_or (comment.author_display_name c) "[deleted]" ++ LF
  ++ str_mul marker depth ++ "  Score: " ++ str_int (comment.score c) ++ LF
  ++ str_mul marker depth ++ "  " ++ comment.body c ++ LF.

(** The texts of a list, one after the other. *)
Definition flat (l : list string) : string := fold_right append EmptyString l.

(** ** Sample inputs *)

(** A stand-in for [datetime] with one value and its formatted text. *)
Definition sample_strftime (_ : unit) : string := "2024-05-01 12:00:00 UTC".

Definition text_post : Submission unit := {|
  link := None;
  title := "Hello";
  subreddit_name := "rocq";
  score := 42;
  comment_count := 3;
  created_at := Some tt;
  author_display_name := Some "alice";
  permalink := "/r/rocq/comments/abc/hello/";
  id36 := "abc";
  cls := TextPost "first post"
|}.

(** A text post whose body has a horizontal rule, a line of three dashes. *)
Definition ruled_post : Submission unit := {|
  link := None;
  title := "Notes";
  subreddit_name := "rocq";
  score := 7;
  comment_count := 0;
  created_at := None;
  author_display_name := None;
  permalink := "/r/rocq/comments/abd/notes/";
  id36 := "abd";
  cls := TextPost ("above" ++ LF ++ "---" ++ LF ++ "below")
|}.

Definition link_post : Submission unit := {|
  link := Some "https://example.org/paper.pdf";
  title := "A link";
  subreddit_name := "rocq";
  score := -2;
  comment_count := 1;
  created_at := None;
  author_display_name := Some "bob";
  permalink := "/r/rocq/comments/abe/a_link/";
  id36 := "abe";
  cls := LinkPost
|}.


(** A submission of a class the module does not know, a poll say. *)
Definition unknown_post : Submission unit := {|
  link := None;
  title := "Hello";
  subreddit_name := "rocq";
  score := 42;
  comment_count := 0;
  created_at := None;
  author_display_name := Some "alice";
  permalink := "/r/rocq/comments/abg/hello/";
  id36 := "abg";
  cls := OtherPost
|}.

Definition missing : exn :=
  {| exn_cls := AttributeError; exn_str := "object has no attribute" |}.

Definition boom : exn := {| exn_cls := OtherError; exn_str := "boom" |}.

(** The cancellation of the task that runs the operation. *)
Definition cancelled : exn := {| exn_cls := BaseOnly; exn_str := "" |}.

(** A client without any of the access paths. *)
Definition bare_client : Client unit := {|
  user_pull_submissions := fun _ _ _ => Raise missing;
  account_pull_submissions := fun _ _ _ => Raise missing;
  subreddit_pull_search := fun _ _ _ _ => Raise missing;
  subreddit_pull_hot := fun _ _ => Raise missing;
  submission_fetch := fun _ => Raise missing;
  comment_tree_fetch := fun _ _ _ _ => Raise missing
|}.

(** A client whose every call fails with an exception of another class. *)
Definition failing_client : Client unit := {|
  user_pull_submissions := fun _ _ _ => Raise boom;
  account_pull_submissions := fun _ _ _ => Raise boom;
  subreddit_pull_search := fun _ _ _ _ => Raise boom;
  subreddit_pull_hot := fun _ _ => Raise boom;
  submission_fetch := fun _ => Raise boom;
  comment_tree_fetch := fun _ _ _ _ => Raise boom
|}.

(** A client whose every call is interrupted by the cancellation. *)
Definition cancelling_client : Client unit := {|
  user_pull_submissions := fun _ _ _ => Raise cancelled;
  account_pull_submissions := fun _ _ _ => Raise cancelled;
  subreddit_pull_search := fun _ _ _ _ => Raise cancelled;
  subreddit_pull_hot := fun _ _ => Raise cancelled;
  submission_fetch := fun _ => Raise cancelled;
  comment_tree_fetch := fun _ _ _ _ => Raise cancelled
|}.

(** A client that has the user path and the hot listing, both serving
    [posts]. *)
Definition serving (posts : list (Submission unit)) : Client unit := {|
  user_pull_submissions := fun _ _ _ => Ret (Some (iter_of posts));
  account_pull_submissions := fun _ _ _ => Raise missing;
  subreddit_pull_search := fun _ _ _ _ => Raise missing;
  subreddit_pull_hot := fun _ _ => Ret (iter_of posts);
  submission_fetch := fun _ => Raise boom;
  comment_tree_fetch := fun _ _ _ _ => Raise boom
|}.

(** A client that has the search only; the search takes any [sort]. *)
Definition search_only (posts : list (Submission unit)) : Client unit := {|
  user_pull_submissions := fun _ _ _ => Raise missing;
  account_pull_submissions := fun _ _ _ => Raise missing;
  subreddit_pull_search := fun _ _ _ _ => Ret (Some (iter_of posts));
  subreddit_pull_hot := fun _ _ => Raise missing;
  submission_fetch := fun _ => Raise missing;
  comment_tree_fetch := fun _ _ _ _ => Raise missing
|}.

(** A client without the user path whose account path fails. *)
Definition account_failing : Client unit := {|
  user_pull_submissions := fun _ _ _ => Raise missing;
  account_pull_submissions := fun _ _ _ => Raise boom;
  subreddit_pull_search := fun _ _ _ _ => Ret (Some Exhausted);
  subreddit_pull_hot := fun _ _ => Raise missing;
  submission_fetch := fun _ => Raise missing;
  comment_tree_fetch := fun _ _ _ _ => Raise missing
|}.

(** A client that fetches one submission and its comments. *)
Definition content_client (s : Submission unit) (comments : list CommentNode)
  : Client unit := {|
  user_pull_submissions := fun _ _ _ => Raise missing;
  account_pull_submissions := fun _ _ _ => Raise missing;
  subreddit_pull_search := fun _ _ _ _ => Raise missing;
  subreddit_pull_hot := fun _ _ => Raise missing;
  submission_fetch := fun _ => Ret s;
  comment_tree_fetch := fun _ _ _ _ => Ret {| tree_children := comments |}
|}.

Definition plain_comment : comment.t := {|
  comment.author_display_name := None;
  comment.score := 1;
  comment.body := "hi"
|}.

(** An environment with the secret and the token set and an empty id. *)
Definition sample_env : environ := fun name =>
  if name =? "REDDIT_CLIENT_ID" then Some ""
  else if name =? "REDDIT_CLIENT_SECRET" then Some "s3cret"
  else if name =? "REDDIT_REFRESH_TOKEN" then Some "t0ken"
  else None.

(** ** Further observations *)

(** The records an operation handed to [logging.error], in order. *)
Fixpoint logged (t : list event) : list string :=
  match t with
  | [] => []
  | LogError msg :: rest => msg :: logged rest
  | _ :: rest => logged rest
  end.

(** The calls an operation made on the client, in order. *)
Fixpoint calls (t : list event) : list client_call :=
  match t with
  | [] => []
  | Called c :: rest => c :: calls rest
  | _ :: rest => calls rest
  end.

(** Number of line feeds in a text. *)
Fixpoint newlines (s : string) : nat :=
  match s with
  | EmptyString => 0
  | String c rest =>
      (if Ascii.eqb c (ascii_of_nat 10) then 1 else 0) + newlines rest
  end.

(** Number of comments in a tree. *)
Fixpoint size (n : CommentNode) : nat :=
  match n with
  | Node _ ch => S (list_sum (map size ch))
  end.

(** Line feeds the comments of a tree carry in the texts that are printed
    from them: the displayed author and the body. *)
Fixpoint field_newlines (n : CommentNode) : nat :=
  match n with
  | Node v ch =>
      newlines (str_or (comment.author_display_name v) "[deleted]")
      + newlines (comment.body v)
      + list_sum (map field_newlines ch)
  end.

(** A comment tree of three comments: a reply under the first of two
    top-level comments. *)
Definition reply : CommentNode := Node plain_comment [].

Definition thread : list CommentNode :=
  [Node plain_comment [reply]; Node plain_comment []].

(** A post that raises while it is iterated, after one submission. *)
Definition breaking (e : exn) : aiter unit := Yield text_post (Broken e).

(** A client whose user path and hot listing break after one post. *)
Definition breaking_client (e : exn) : Client unit := {|
  user_pull_submissions := fun _ _ _ => Ret (Some (breaking e));
  account_pull_submissions := fun _ _ _ => Raise missing;
  subreddit_pull_search := fun _ _ _ _ => Raise missing;
  subreddit_pull_hot := fun _ _ => Ret (breaking e);
  submission_fetch := fun _ => Ret text_post;
  comment_tree_fetch := fun _ _ _ _ => Raise e
|}.

(** A client whose three access paths exist and answer [None]. *)
Definition none_client : Client unit := {|
  user_pull_submissions := fun _ _ _ => Ret None;
  account_pull_submissions := fun _ _ _ => Ret None;
  subreddit_pull_search := fun _ _ _ _ => Ret None;
  subreddit_pull_hot := fun _ _ => Raise missing;
  submission_fetch := fun _ => Raise missing;
  comment_tree_fetch := fun _ _ _ _ => Raise missing
|}.

(** A client without the user path whose account path serves [posts]. *)
Definition account_serving (posts : list (Submission unit)) : Client unit := {|
  user_pull_submissions := fun _ _ _ => Raise missing;
  account_pull_submissions := fun _ _ _ => Ret (Some (iter_of posts));
  subreddit_pull_search := fun _ _ _ _ => Raise boom;
  subreddit_pull_hot := fun _ _ => Raise missing;
  submission_fetch := fun _ => Raise missing;
  comment_tree_fetch := fun _ _ _ _ => Raise missing
|}.

(** * Properties *)

(** ** Texts *)

Lemma append_nil_r (s : string) : s ++ "" = s.
Proof. induction s as [|c s IH]; simpl; [reflexivity | now rewrite IH]. Qed.

Lemma append_nil_l (s : string) : "" ++ s = s.
Proof. reflexivity. Qed.

Lemma append_assoc (a b c : string) : (a ++ b) ++ c = a ++ b ++ c.
Proof. induction a as [|x a IH]; simpl; [reflexivity | now rewrite IH]. Qed.

Lemma startswith_cons (a b : ascii) (s p : string) :
  startswith (String b s) (String a p) = Ascii.eqb a b && startswith s p.
Proof. reflexivity. Qed.

Lemma startswith_nil (a : ascii) (p : string) :
  startswith "" (String a p) = false.
Proof. reflexivity. Qed.

Lemma startswith_empty (s : string) : startswith s "" = true.
Proof. reflexivity. Qed.

Ltac startswith_step :=
  rewrite ?startswith_cons, ?startswith_nil, ?startswith_empty.

Lemma startswith_app (p rest : string) : startswith (p ++ rest) p = true.
Proof.
  induction p as [|c p IH]; cbn; [reflexivity|].
  now rewrite Ascii.eqb_refl, IH.
Qed.

(** An occurrence of the separator cannot reach into a text that does not
    begin with a dash. *)
Lemma startswith_sep_app_head (a b : string) :
  head_ok b = true -> a <> "" ->
  startswith (a ++ b) "---" = startswith a "---".
Proof.
  intros Hb Ha.
  assert (Hd : forall p, startswith b (String "-" p) = false).
  { intros p. destruct b as [|c b]; [reflexivity|].
    startswith_step. cbn [head_ok] in Hb. unfold is_dash in Hb.
    now destruct (Ascii.eqb "-" c). }
  destruct a as [|c1 [|c2 [|c3 a]]]; [congruence| | |];
    cbn [append]; startswith_step; rewrite ?Hd, ?andb_false_r; reflexivity.
Qed.

Lemma count_sep_app_head (a b : string) :
  head_ok b = true -> count_sep (a ++ b) = count_sep a + count_sep b.
Proof.
  intros Hb. unfold count_sep. induction a as [|c a IH]; [reflexivity|].
  change (String c a ++ b) with (String c (a ++ b)).
  cbn [occurrences]. rewrite IH.
  change (String c (a ++ b)) with (String c a ++ b).
  rewrite startswith_sep_app_head by (assumption || discriminate). lia.
Qed.

Lemma last_ok_cons (c : ascii) (a : string) :
  a <> "" -> last_ok (String c a) = last_ok a.
Proof. destruct a; [congruence | reflexivity]. Qed.

(** Nor can an occurrence start in a text that does not end with a dash and
    go on beyond it. *)
Lemma startswith_sep_app_last (a b : string) :
  last_ok a = true -> a <> "" ->
  startswith (a ++ b) "---" = startswith a "---".
Proof.
  intros Hl Ha.
  destruct a as [|c1 [|c2 [|c3 a]]]; [congruence| | |];
    cbn [last_ok] in Hl; unfold is_dash in Hl; cbn [append]; startswith_step.
  - destruct (Ascii.eqb "-" c1); [discriminate | reflexivity].
  - destruct (Ascii.eqb "-" c2); [discriminate|].
    now rewrite !andb_false_r.
  - destruct a.
    + destruct (Ascii.eqb "-" c3); [discriminate|].
      now rewrite !andb_false_r.
    + reflexivity.
Qed.

Lemma count_sep_app_last (a b : string) :
  last_ok a = true -> count_sep (a ++ b) = count_sep a + count_sep b.
Proof.
  unfold count_sep. induction a as [|c a IH]; intros Hl; [reflexivity|].
  change (String c a ++ b) with (String c (a ++ b)).
  cbn [occurrences].
  change (String c (a ++ b)) with (String c a ++ b).
  rewrite startswith_sep_app_last by (assumption || discriminate).
  destruct a as [|c' a'].
  - cbn. lia.
  - rewrite IH; [lia|]. now rewrite last_ok_cons in Hl by discriminate.
Qed.

Lemma count_sep_no_dash (s : string) : no_dash s = true -> count_sep s = 0.
Proof.
  unfold count_sep. induction s as [|c s IH]; [reflexivity|].
  cbn [no_dash occurrences]. startswith_step. unfold is_dash.
  destruct (Ascii.eqb "-" c); [discriminate|].
  intros H. cbn [negb andb] in *. auto.
Qed.

Lemma no_dash_uint (d : Decimal.uint) :
  no_dash (NilEmpty.string_of_uint d) = true.
Proof. induction d; cbn; auto. Qed.

Lemma no_dash_uint0 (d : Decimal.uint) :
  no_dash (NilZero.string_of_uint d) = true.
Proof. destruct d; try reflexivity; apply (no_dash_uint (_ _)). Qed.

(** The decimal text of an integer has at most its sign for a dash. *)
Lemma count_sep_str_int (z : Z) : count_sep (str_int z) = 0.
Proof.
  unfold str_int, NilZero.string_of_int.
  destruct (Z.to_int z) as [d|d].
  - apply count_sep_no_dash, no_dash_uint0.
  - pose proof (no_dash_uint0 d) as H.
    destruct (NilZero.string_of_uint d) as [|c s] eqn:E; [reflexivity|].
    unfold count_sep. cbn [occurrences]. startswith_step.
    cbn [no_dash] in H. unfold is_dash in H.
    rewrite Ascii.eqb_refl.
    destruct (Ascii.eqb "-" c) eqn:Ec; [discriminate|].
    cbn [negb andb] in *. now apply count_sep_no_dash in H.
Qed.

Lemma head_ok_str_int_app (z : Z) (rest : string) :
  head_ok rest = true -> count_sep (str_int z ++ rest) = count_sep rest.
Proof.
  intros H. rewrite count_sep_app_head by assumption.
  now rewrite count_sep_str_int.
Qed.

(** ** Credentials *)

Lemma keep_truthy_cons (x : option string) (l : list (option string)) :
  keep_truthy (x :: l) = (forwarded x ++ keep_truthy l)%list.
Proof. destruct x as [[|c s]|]; reflexivity. Qed.

Lemma forwarded_nonempty (x : option string) (v : string) :
  In v (forwarded x) -> x = Some v /\ v <> "".
Proof.
  destruct x as [[|c s]|]; cbn; try tauto.
  intros [<-|[]]. split; [reflexivity | discriminate].
Qed.

(** C9: the credential list is made of the values of the three variables
    that are set and not empty, in the order id, secret, refresh token, and
    it is the list of positional arguments of the client constructor; with
    none of the three set, the constructor gets no argument. *)
Theorem C9_credentials_in_order (env : environ) :
  client_positional_args env
  = (forwarded (env "REDDIT_CLIENT_ID")
     ++ forwarded (env "REDDIT_CLIENT_SECRET")
     ++ forwarded (env "REDDIT_REFRESH_TOKEN"))%list
  /\ (forall v, In v (client_positional_args env) ->
        v <> ""
        /\ (env "REDDIT_CLIENT_ID" = Some v
            \/ env "REDDIT_CLIENT_SECRET" = Some v
            \/ env "REDDIT_REFRESH_TOKEN" = Some v))
  /\ (forall name v,
        In name ["REDDIT_CLIENT_ID"; "REDDIT_CLIENT_SECRET";
                 "REDDIT_REFRESH_TOKEN"] ->
        env name = Some v -> v <> "" -> In v (client_positional_args env))
  /\ (env "REDDIT_CLIENT_ID" = None ->
      env "REDDIT_CLIENT_SECRET" = None ->
      env "REDDIT_REFRESH_TOKEN" = None ->
      client_positional_args env = []).
Proof.
  assert (E : client_positional_args env
              = (forwarded (env "REDDIT_CLIENT_ID")
                 ++ forwarded (env "REDDIT_CLIENT_SECRET")
                 ++ forwarded (env "REDDIT_REFRESH_TOKEN"))%list).
  { unfold client_positional_args, CREDS, REDDIT_CLIENT_ID,
      REDDIT_CLIENT_SECRET, REDDIT_REFRESH_TOKEN, getenv.
    rewrite !keep_truthy_cons. cbn [keep_truthy]. now rewrite app_nil_r. }
  split; [exact E|]. rewrite E. repeat split.
  - apply in_app_or in H. destruct H as [H|H];
      [|apply in_app_or in H; destruct H as [H|H]];
      apply forwarded_nonempty in H; tauto.
  - apply in_app_or in H. destruct H as [H|H];
      [|apply in_app_or in H; destruct H as [H|H]];
      apply forwarded_nonempty in H; tauto.
  - intros name v Hn Hv Hne.
    assert (Hf : In v (forwarded (env name))).
    { rewrite Hv. cbn. destruct v; [congruence | now left]. }
    cbn in Hn. destruct Hn as [<-|[<-|[<-|[]]]];
      repeat (apply in_or_app; (now left) || right); assumption.
  - intros -> -> ->. reflexivity.
Qed.

(** ** Comment tree *)

Lemma fold_left_append {A} (f : A -> string) (l : list A) (init : string) :
  fold_left (fun content x => content ++ LF ++ f x) l init
  = init ++ flat (map (fun x => LF ++ f x) l).
Proof.
  revert init. induction l as [|x l IH]; intros init; cbn.
  - now rewrite append_nil_r.
  - rewrite IH. now rewrite append_assoc.
Qed.

Lemma length_append (a b : string) :
  String.length (a ++ b) = String.length a + String.length b.
Proof. induction a as [|c a IH]; cbn; [reflexivity | now rewrite IH]. Qed.

Lemma length_str_mul (s : string) (n : nat) :
  String.length (str_mul s n) = n * String.length s.
Proof.
  induction n as [|n IH]; cbn; [reflexivity|].
  now rewrite length_append, IH.
Qed.

(** C3, as the code has it: the marker repeated [depth] times is the
    three-character text made of two dashes and a space; a node renders
    its author (or [[deleted]]), score and body, one per line and each
    behind the prefix, then every child in order at depth + 1, each
    preceded by an empty line; a node without children renders its three
    lines only. *)
Theorem C3_format_comment_tree (v : comment.t) (ch : list CommentNode)
    (depth : nat) :
  _format_comment_tree (Node v ch) depth
  = own_lines "-- " v depth
    ++ flat (map (fun child => LF ++ _format_comment_tree child (S depth)) ch)
  /\ _format_comment_tree (Node v []) depth = own_lines "-- " v depth
  /\ String.length (str_mul "-- " depth) = 3 * depth.
Proof.
  assert (E : forall l,
    _format_comment_tree (Node v l) depth
    = own_lines "-- " v depth
      ++ flat (map (fun child => LF ++ _format_comment_tree child (S depth))
                 l)).
  { intros l. cbn [_format_comment_tree value].
    rewrite (fold_left_append (fun child => _format_comment_tree child (S depth))).
    unfold own_lines. now rewrite !append_assoc. }
  split; [apply E|]. split.
  - rewrite E. cbn. apply append_nil_r.
  - rewrite length_str_mul. cbn. lia.
Qed.


(** ** Iteration and joining *)

Lemma count_sep_join (l : list string) :
  (forall x, In x l -> forall rest, head_ok rest = true ->
     count_sep (x ++ rest) = 1 + count_sep rest) ->
  count_sep (join (LF ++ LF) l) = List.length l.
Proof.
  induction l as [|x [|y l] IH]; intros H.
  - reflexivity.
  - cbn [join List.length]. rewrite <- (append_nil_r x).
    rewrite H; [reflexivity | now left | reflexivity].
  - change (join (LF ++ LF) (x :: y :: l))
      with (x ++ (LF ++ LF) ++ join (LF ++ LF) (y :: l)).
    rewrite H; [|now left | reflexivity].
    rewrite count_sep_app_last by reflexivity.
    rewrite IH; [reflexivity|].
    intros z Hz. apply H. now right.
Qed.

Section FetcherProperties.

Context {datetime : Type} (strftime_utc : datetime -> string).

Local Abbreviation Submission := (Submission datetime).
Local Abbreviation aiter := (aiter datetime).
Local Abbreviation Client := (Client datetime).

Lemma async_for_spec (post_info : Submission -> string) (it : aiter)
    (posts : list string) :
  async_for post_info it posts
  = (repeat Next (S (List.length (yielded it))),
     match fault it with
     | None => Ret (posts ++ map post_info (yielded it))%list
     | Some e => Raise e
     end).
Proof.
  revert posts. induction it as [|s rest IH|e]; intros posts.
  - cbn. now rewrite app_nil_r.
  - cbn [async_for yielded fault]. unfold bind, emit. rewrite IH.
    cbn. now rewrite <- app_assoc.
  - reflexivity.
Qed.

Ltac count_split :=
  repeat first
    [ rewrite head_ok_str_int_app by reflexivity
    | rewrite count_sep_app_head by (reflexivity || assumption)
    | rewrite count_sep_app_last by reflexivity ].

Lemma count_sep_post_type (s : Submission) : count_sep (_get_post_type s) = 0.
Proof. unfold _get_post_type. now destruct (cls s). Qed.

Lemma count_sep_content (s : Submission) :
  class_sep_free (cls s) -> sep_free (permalink s) ->
  count_sep (fmt_optional (_get_content s)) = 0.
Proof.
  unfold _get_content, class_sep_free, sep_free.
  destruct (cls s); cbn; auto.
Qed.

Lemma count_sep_author (a : option string) :
  author_sep_free a -> count_sep (str_or a "[deleted]") = 0.
Proof. destruct a as [[|c n]|]; cbn; auto. Qed.

(** A block of [fetch_user_latest_posts] whose fields are free of the
    separator has the one it ends with. *)
Lemma count_sep_user_post_info (s : Submission) (rest : string) :
  user_fields_sep_free strftime_utc s -> head_ok rest = true ->
  count_sep (user_post_info strftime_utc s ++ rest) = 1 + count_sep rest.
Proof.
  intros (Ht & Hs & Hc & Hk & Hp & Hi) Hr.
  pose proof (count_sep_content s Hk Hp) as Hcontent.
  pose proof (count_sep_post_type s) as Htype.
  unfold sep_free in *.
  unfold user_post_info, created_time. rewrite !append_assoc.
  destruct (created_at s) as [t|] eqn:Et.
  - specialize (Hc t eq_refl). rewrite !append_assoc.
    count_split. rewrite Ht, Hs, Hc, Htype, Hcontent, Hp, Hi. reflexivity.
  - rewrite append_nil_l. count_split.
    rewrite Ht, Hs, Htype, Hcontent, Hp, Hi. reflexivity.
Qed.

Lemma count_sep_hot_post_info (s : Submission) (rest : string) :
  hot_fields_sep_free s -> head_ok rest = true ->
  count_sep (hot_post_info s ++ rest) = 1 + count_sep rest.
Proof.
  intros (Ht & Ha & Hk & Hp) Hr.
  pose proof (count_sep_content s Hk Hp) as Hcontent.
  pose proof (count_sep_post_type s) as Htype.
  apply count_sep_author in Ha.
  unfold sep_free in *.
  unfold hot_post_info. rewrite !append_assoc.
  count_split. rewrite Ht, Ha, Htype, Hcontent, Hp. reflexivity.
Qed.

(** ** The fallback chain of [fetch_user_latest_posts] *)

Lemma method1_valid (client : Client) (username : string) (limit : Z)
    (sort : string) (m : SortMode) :
  sort_mode sort = Some m ->
  method1 client username limit sort
  = try_except
      (call (UserSubmissions m username limit)
            (user_pull_submissions client m username limit))
      is_AttributeError (fun _ => ret None).
Proof.
  unfold sort_mode, method1.
  destruct (sort =? "new"); [now intros [= <-]|].
  destruct (sort =? "hot"); [now intros [= <-]|].
  destruct (sort =? "top"); [now intros [= <-] | discriminate].
Qed.

Lemma method2_valid (client : Client) (username : string) (limit : Z)
    (sort : string) (m : SortMode) :
  sort_mode sort = Some m ->
  method2 client username limit sort
  = try_except
      (call (AccountSubmissions m username limit)
            (account_pull_submissions client m username limit))
      is_AttributeError (fun _ => ret None).
Proof.
  unfold sort_mode, method2.
  destruct (sort =? "new"); [now intros [= <-]|].
  destruct (sort =? "hot"); [now intros [= <-]|].
  destruct (sort =? "top"); [now intros [= <-] | discriminate].
Qed.

(** With a sort that names no mode the first two methods touch nothing and
    the chain goes on to the search. *)
Lemma obtain_invalid_sort (client : Client) (username : string) (limit : Z)
    (sort : string) :
  sort_mode sort = None ->
  obtain_submission_iter client username limit sort
  = method3 client username limit sort.
Proof.
  unfold sort_mode, obtain_submission_iter, method1, method2.
  destruct (sort =? "new"); [discriminate|].
  destruct (sort =? "hot"); [discriminate|].
  destruct (sort =? "top"); [discriminate|].
  intros _. cbn. now destruct (method3 client username limit sort).
Qed.

Lemma try_attr_raise {A} (c : client_call) (e : exn) (h : exn -> M A) :
  try_except (call c (Raise e)) is_AttributeError h
  = if is_AttributeError e
    then let (t', r) := h e in ((Called c :: t')%list, r)
    else ([Called c], Raise e).
Proof.
  unfold try_except, call. destruct (is_AttributeError e); [|reflexivity].
  now destruct (h e).
Qed.

(** Case analysis on the guards of the handlers in the goal. *)
Ltac split_guards :=
  repeat (match goal with
          | |- context [is_AttributeError ?e] =>
              destruct (is_AttributeError e)
          | |- context [is_Exception ?e] => destruct (is_Exception e)
          end; cbn).

(** Whatever the client, a sort that names no mode makes the search the
    first call, with that sort as its argument. *)
Lemma invalid_sort_calls_search (client : Client) (username : string)
    (limit : Z) (sort : string) :
  sort_mode sort = None ->
  exists rest,
    trace (fetch_user_latest_posts strftime_utc client username limit sort)
    = Called (SubredditSearch "all" ("author:" ++ username) sort limit)
      :: rest.
Proof.
  intros Hs.
  unfold fetch_user_latest_posts, fetch_user_latest_posts_body.
  rewrite (obtain_invalid_sort _ _ _ _ Hs). unfold method3.
  destruct (subreddit_pull_search client "all" ("author:" ++ username)
              sort limit) as [[it|]|e] eqn:E.
  - cbn. rewrite async_for_spec.
    destruct (fault it) as [e|]; [|destruct (yielded it) as [|s l]];
      cbn; split_guards; cbn; eexists; reflexivity.
  - cbn. eexists; reflexivity.
  - cbn. split_guards; cbn; eexists; reflexivity.
Qed.

(** C6: with a valid sort, when the user path and the account path both
    raise AttributeError, the author search over all communities is called
    next; when the search raises AttributeError too, the operation returns
    the text that says the API structure may have changed, and raises
    nothing. *)
Theorem C6_fallback_reaches_search (client : Client) (username : string)
    (limit : Z) (sort : string) (m : SortMode) (e1 e2 : exn) :
  sort_mode sort = Some m ->
  user_pull_submissions client m username limit = Raise e1 ->
  is_AttributeError e1 = true ->
  account_pull_submissions client m username limit = Raise e2 ->
  is_AttributeError e2 = true ->
  (exists rest,
     trace (fetch_user_latest_posts strftime_utc client username limit sort)
     = ([Called (UserSubmissions m username limit);
         Called (AccountSubmissions m username limit);
         Called (SubredditSearch "all" ("author:" ++ username) sort limit)]
        ++ rest)%list)
  /\ (forall e3,
        subreddit_pull_search client "all" ("author:" ++ username) sort limit
        = Raise e3 ->
        is_AttributeError e3 = true ->
        fetch_user_latest_posts strftime_utc client username limit sort
        = ([Called (UserSubmissions m username limit);
            Called (AccountSubmissions m username limit);
            Called (SubredditSearch "all" ("author:" ++ username) sort limit)],
           Ret "Unable to access user posts API. RedditWarp API structure may have changed.")).
Proof.
  intros Hm H1 A1 H2 A2.
  unfold fetch_user_latest_posts, fetch_user_latest_posts_body,
    obtain_submission_iter.
  rewrite (method1_valid _ _ _ _ _ Hm), (method2_valid _ _ _ _ _ Hm).
  rewrite H1, H2, !try_attr_raise, A1, A2. unfold method3.
  split.
  - destruct (subreddit_pull_search client "all" ("author:" ++ username)
                sort limit) as [[it|]|e3] eqn:E3.
    + cbn. rewrite async_for_spec.
      destruct (fault it) as [e|]; [|destruct (yielded it) as [|s l]];
        cbn; split_guards; cbn; eexists; reflexivity.
    + cbn. eexists; reflexivity.
    + cbn. split_guards; cbn; eexists; reflexivity.
  - intros e3 H3 A3. rewrite H3. cbn. rewrite A3. reflexivity.
Qed.

(** C10, as the code has it: only AttributeError moves the chain on.  With
    a valid sort, an exception of another class raised by the user path, or
    by the account path once it is reached, ends the chain: no further
    strategy is called.  When the exception derives from [Exception], the
    outer handler logs and returns "An error occurred while fetching posts
    for <username>: <message>"; when it does not, it leaves the operation
    as it is, nothing logged and nothing returned. *)
Theorem C10_other_exception_stops_chain (client : Client) (username : string)
    (limit : Z) (sort : string) (m : SortMode) (e : exn) :
  sort_mode sort = Some m ->
  is_AttributeError e = false ->
  let text :=
    "An error occurred while fetching posts for " ++ username ++ ": "
    ++ exn_str e in
  (user_pull_submissions client m username limit = Raise e ->
   fetch_user_latest_posts strftime_utc client username limit sort
   = if is_Exception e
     then ([Called (UserSubmissions m username limit); LogError text],
           Ret text)
     else ([Called (UserSubmissions m username limit)], Raise e))
  /\ (method1 client username limit sort
      = ([Called (UserSubmissions m username limit)], Ret None) ->
      account_pull_submissions client m username limit = Raise e ->
      fetch_user_latest_posts strftime_utc client username limit sort
      = if is_Exception e
        then ([Called (UserSubmissions m username limit);
               Called (AccountSubmissions m username limit);
               LogError text],
              Ret text)
        else ([Called (UserSubmissions m username limit);
               Called (AccountSubmissions m username limit)],
              Raise e)).
Proof.
  intros Hm He text.
  unfold fetch_user_latest_posts, fetch_user_latest_posts_body,
    obtain_submission_iter.
  split.
  - intros H1. rewrite (method1_valid _ _ _ _ _ Hm), H1, try_attr_raise, He.
    cbn. now destruct (is_Exception e).
  - intros H1 H2. rewrite H1.
    rewrite (method2_valid _ _ _ _ _ Hm), H2, try_attr_raise, He.
    cbn. now destruct (is_Exception e).
Qed.

(** ** Texts of the listings *)

Lemma count_sep_user_blocks (l : list Submission) :
  Forall (user_fields_sep_free strftime_utc) l ->
  count_sep (join (LF ++ LF) (map (user_post_info strftime_utc) l))
  = List.length l.
Proof.
  intros H. rewrite count_sep_join; [apply length_map|].
  intros x Hx rest Hr. apply in_map_iff in Hx. destruct Hx as (s & <- & Hs).
  rewrite Forall_forall in H. now apply count_sep_user_post_info; [apply H|].
Qed.

Lemma count_sep_hot_blocks (l : list Submission) :
  Forall hot_fields_sep_free l ->
  count_sep (join (LF ++ LF) (map hot_post_info l)) = List.length l.
Proof.
  intros H. rewrite count_sep_join; [apply length_map|].
  intros x Hx rest Hr. apply in_map_iff in Hx. destruct Hx as (s & <- & Hs).
  rewrite Forall_forall in H. now apply count_sep_hot_post_info; [apply H|].
Qed.

Lemma chain_gives_obtained (client : Client) (username : string) (limit : Z)
    (sort : string) (m : SortMode) (it : aiter) :
  sort_mode sort = Some m ->
  chain_gives client username limit sort m it ->
  exists tr,
    obtain_submission_iter client username limit sort
    = (tr, Ret (inr (Some it))).
Proof.
  intros Hm H. unfold obtain_submission_iter, method3.
  rewrite (method1_valid _ _ _ _ _ Hm), (method2_valid _ _ _ _ _ Hm).
  destruct H as [H1|[H1|(e1 & H1 & A1)] H2
                |[H1|(e1 & H1 & A1)] [H2|(e2 & H2 & A2)] H3];
    rewrite H1, ?H2, ?H3, ?try_attr_raise, ?A1, ?A2;
    cbn; eexists; reflexivity.
Qed.

(** C7, as the code has it: with a valid sort, when the access paths give
    an iterator (the answer of the first of the user path, the account path
    and the search that is neither missing nor [None]) and the iterator ends
    without raising, an empty iteration gives exactly the text "No posts
    found for user: <username>"; otherwise the text is the heading "Latest
    N posts from u/<username>:", an empty line, and one block per post,
    blocks joined by an empty line and each ending with the separator.  The
    separator occurs once per post when neither the username nor any text
    interpolated in a block contains it. *)
Theorem C7_user_posts_text (client : Client) (username : string) (limit : Z)
    (sort : string) (m : SortMode) (it : aiter) :
  sort_mode sort = Some m ->
  chain_gives client username limit sort m it ->
  fault it = None ->
  let posts := map (user_post_info strftime_utc) (yielded it) in
  let text :=
    "Latest " ++ str_len (yielded it) ++ " posts from u/" ++ username ++ ":"
    ++ LF ++ LF ++ join (LF ++ LF) posts in
  (yielded it = [] ->
   result (fetch_user_latest_posts strftime_utc client username limit sort)
   = Ret ("No posts found for user: " ++ username))
  /\ (yielded it <> [] ->
      result (fetch_user_latest_posts strftime_utc client username limit sort)
      = Ret text
      /\ startswith text
           ("Latest " ++ str_len (yielded it) ++ " posts from u/" ++ username
            ++ ":") = true
      /\ (sep_free username ->
          Forall (user_fields_sep_free strftime_utc) (yielded it) ->
          count_sep text = List.length (yielded it))).
Proof.
  intros Hm Hc Hf posts text.
  destruct (chain_gives_obtained _ _ _ _ _ _ Hm Hc) as [tr Ho].
  assert (E : fetch_user_latest_posts_body strftime_utc client username
                limit sort
              = ((tr ++ repeat Next (S (List.length (yielded it))))%list,
                 match posts with
                 | [] => Ret ("No posts found for user: " ++ username)
                 | _ :: _ =>
                     Ret ("Latest " ++ str_len posts ++ " posts from u/"
                          ++ username ++ ":" ++ LF ++ LF
                          ++ join (LF ++ LF) posts)
                 end)).
  { unfold fetch_user_latest_posts_body. rewrite Ho. unfold bind at 1.
    rewrite async_for_spec, Hf. cbn [app]. fold posts.
    unfold bind. destruct posts; cbn; now rewrite ?app_nil_r. }
  unfold fetch_user_latest_posts. rewrite E. split.
  - intros Hy. subst posts. rewrite Hy. reflexivity.
  - intros Hy. split; [|split].
    + subst posts text. destruct (yielded it) as [|s l]; [congruence|].
      unfold str_len. now rewrite !length_map.
    + subst text.
      replace ("Latest " ++ str_len (yielded it) ++ " posts from u/"
               ++ username ++ ":" ++ LF ++ LF ++ join (LF ++ LF) posts)
        with (("Latest " ++ str_len (yielded it) ++ " posts from u/"
               ++ username ++ ":") ++ LF ++ LF ++ join (LF ++ LF) posts)
        by now rewrite !append_assoc.
      apply startswith_app.
    + intros Hu Hall. subst text posts. unfold str_len, sep_free in *.
      count_split. rewrite Hu, count_sep_user_blocks by assumption.
      reflexivity.
Qed.

(** C8, as the code has it: when the hot listing ends without raising, the
    text is the blocks of the posts joined by an empty line, hence the empty
    text for no post; a block is made of title, score, comment count, author
    (or [[deleted]]), type, content, link and the separator, without
    subreddit, post id or creation time.  The separator occurs once per
    post when no text interpolated in a block contains it. *)
Theorem C8_hot_threads_text (client : Client) (subreddit : string)
    (limit : Z) (it : aiter) :
  subreddit_pull_hot client subreddit limit = Ret it ->
  fault it = None ->
  let text := join (LF ++ LF) (map hot_post_info (yielded it)) in
  result (fetch_reddit_hot_threads client subreddit limit) = Ret text
  /\ (yielded it = [] -> text = "")
  /\ (Forall hot_fields_sep_free (yielded it) ->
      count_sep text = List.length (yielded it))
  /\ (forall s : Submission,
        hot_post_info s
        = "Title: " ++ title s ++ LF
          ++ "Score: " ++ str_int (score s) ++ LF
          ++ "Comments: " ++ str_int (comment_count s) ++ LF
          ++ "Author: " ++ str_or (author_display_name s) "[deleted]" ++ LF
          ++ "Type: " ++ _get_post_type s ++ LF
          ++ "Content: " ++ fmt_optional (_get_content s) ++ LF
          ++ "Link: https://reddit.com" ++ permalink s ++ LF
          ++ "---").
Proof.
  intros Hc Hf text. repeat split.
  - unfold fetch_reddit_hot_threads, fetch_reddit_hot_threads_body.
    rewrite Hc. unfold call, bind at 1. rewrite async_for_spec, Hf.
    reflexivity.
  - intros Hy. subst text. now rewrite Hy.
  - apply count_sep_hot_blocks.
Qed.

(** ** The operation boundary *)

Lemma try_except_all (m : M string) (h : exn -> M string) :
  (forall e, exists t s, h e = (t, Ret s)) ->
  (exists s, result (try_except m is_Exception h) = Ret s)
  \/ (exists e, is_Exception e = false
                /\ result (try_except m is_Exception h) = Raise e).
Proof.
  intros H. destruct m as [t [a|e]]; cbn.
  - left. now exists a.
  - destruct (is_Exception e) eqn:Ee.
    + left. destruct (H e) as (t' & s & ->). now exists s.
    + right. now exists e.
Qed.

(** Each operation ends with a text, or with an exception that does not
    derive from [Exception] and that it lets through. *)
Lemma fetch_user_latest_posts_returns (client : Client) (username : string)
    (limit : Z) (sort : string) :
  let r := fetch_user_latest_posts strftime_utc client username limit sort in
  (exists text, result r = Ret text)
  \/ (exists e, is_Exception e = false /\ result r = Raise e).
Proof. apply try_except_all. intros e. now eexists _, _. Qed.

Lemma fetch_reddit_hot_threads_returns (client : Client) (subreddit : string)
    (limit : Z) :
  let r := fetch_reddit_hot_threads client subreddit limit in
  (exists text, result r = Ret text)
  \/ (exists e, is_Exception e = false /\ result r = Raise e).
Proof. apply try_except_all. intros e. now eexists _, _. Qed.

Lemma fetch_reddit_post_content_returns (client : Client) (post_id : string)
    (comment_limit comment_depth : Z) :
  let r := fetch_reddit_post_content client post_id comment_limit
             comment_depth in
  (exists text, result r = Ret text)
  \/ (exists e, is_Exception e = false /\ result r = Raise e).
Proof. apply try_except_all. intros e. now eexists _, _. Qed.

(** An exception deriving from [Exception] that leaves the [try] block
    becomes the operation's text; the first two operations log that text,
    the third returns it only. *)
Lemma fetch_user_latest_posts_caught (client : Client) (username : string)
    (limit : Z) (sort : string) (tr : list event) (e : exn) :
  is_Exception e = true ->
  fetch_user_latest_posts_body strftime_utc client username limit sort
  = (tr, Raise e) ->
  fetch_user_latest_posts strftime_utc client username limit sort
  = ((tr ++ [LogError (user_error_text username e)])%list,
     Ret (user_error_text username e)).
Proof.
  unfold fetch_user_latest_posts. intros He ->. cbn. now rewrite He.
Qed.

Lemma fetch_reddit_hot_threads_caught (client : Client) (subreddit : string)
    (limit : Z) (tr : list event) (e : exn) :
  is_Exception e = true ->
  fetch_reddit_hot_threads_body client subreddit limit = (tr, Raise e) ->
  fetch_reddit_hot_threads client subreddit limit
  = ((tr ++ [LogError (error_text e)])%list, Ret (error_text e)).
Proof.
  unfold fetch_reddit_hot_threads. intros He ->. cbn. now rewrite He.
Qed.

Lemma fetch_reddit_post_content_caught (client : Client) (post_id : string)
    (comment_limit comment_depth : Z) (tr : list event) (e : exn) :
  is_Exception e = true ->
  fetch_reddit_post_content_body client post_id comment_limit comment_depth
  = (tr, Raise e) ->
  fetch_reddit_post_content client post_id comment_limit comment_depth
  = ((tr ++ [])%list, Ret (error_text e)).
Proof.
  unfold fetch_reddit_post_content. intros He ->. cbn. now rewrite He.
Qed.

(** ** Classification and content *)

(** C4, as the code has it: every submission gets one of the four type
    texts, and which one is decided by its class alone; for a class other
    than the three known ones the type is "unknown", the content is [None],
    and the three formatters print it as the text "None". *)
Theorem C4_classification_total (s : Submission) :
  In (_get_post_type s) ["link"; "text"; "gallery"; "unknown"]
  /\ (_get_post_type s = "link" <-> cls s = LinkPost)
  /\ (_get_post_type s = "text" <-> exists body, cls s = TextPost body)
  /\ (_get_post_type s = "gallery" <-> exists g, cls s = GalleryPost g)
  /\ (_get_post_type s = "unknown" <-> cls s = OtherPost)
  /\ (cls s = OtherPost ->
      _get_content s = None
      /\ post_header s
         = "Title: " ++ title s ++ LF
           ++ "Score: " ++ str_int (score s) ++ LF
           ++ "Author: " ++ str_or (author_display_name s) "[deleted]" ++ LF
           ++ "Type: unknown" ++ LF
           ++ "Content: None" ++ LF
      /\ hot_post_info s
         = "Title: " ++ title s ++ LF
           ++ "Score: " ++ str_int (score s) ++ LF
           ++ "Comments: " ++ str_int (comment_count s) ++ LF
           ++ "Author: " ++ str_or (author_display_name s) "[deleted]" ++ LF
           ++ "Type: unknown" ++ LF
           ++ "Content: None" ++ LF
           ++ "Link: https://reddit.com" ++ permalink s ++ LF
           ++ "---"
      /\ user_post_info strftime_utc s
         = "Title: " ++ title s ++ LF
           ++ "Subreddit: r/" ++ subreddit_name s ++ LF
           ++ "Score: " ++ str_int (score s) ++ LF
           ++ "Comments: " ++ str_int (comment_count s) ++ LF
           ++ created_time strftime_utc s
           ++ "Type: unknown" ++ LF
           ++ "Content: None" ++ LF
           ++ "Link: https://reddit.com" ++ permalink s ++ LF
           ++ "Post ID: " ++ id36 s ++ LF
           ++ "---").
Proof.
  unfold post_header, hot_post_info, user_post_info, _get_post_type,
    _get_content.
  destruct (cls s) as [|body|g|] eqn:E; cbn [In];
    repeat split; try tauto; try discriminate; eauto;
    try (intros [x Hx]; discriminate Hx).
Qed.


End FetcherProperties.

(** ** The operations on sample inputs *)

(** C1, at a failing input: with a sort that names no mode, the first two
    methods are skipped, the search is called with that sort, its iterator
    is advanced, and the posts it yields are returned; the text on the
    invalid sort is not. *)
Theorem C1_invalid_sort_reaches_search :
  sort_mode "invalid" = None
  /\ fetch_user_latest_posts sample_strftime (search_only [text_post])
       "alice" 10 "invalid"
     = ([Called (SubredditSearch "all" "author:alice" "invalid" 10);
         Next; Next],
        Ret ("Latest 1 posts from u/alice:" ++ LF ++ LF
             ++ user_post_info sample_strftime text_post))
  /\ startswith
       ("Latest 1 posts from u/alice:" ++ LF ++ LF
        ++ user_post_info sample_strftime text_post)
       "Invalid sort method: invalid." = false.
Proof. repeat split; reflexivity. Qed.

(** C2, at two failing inputs: a failed fetch in
    [fetch_reddit_post_content] is returned as text and nothing is logged;
    a failed listing in [fetch_reddit_hot_threads] is logged, with a text
    that does not name the subreddit. *)
Theorem C2_errors_not_logged_alike :
  fetch_reddit_post_content failing_client "abc" 20 3
  = ([Called (SubmissionFetch "abc")], Ret "An error occurred: boom")
  /\ fetch_reddit_hot_threads failing_client "rocq" 10
     = ([Called (SubredditHot "rocq" 10); LogError "An error occurred: boom"],
        Ret "An error occurred: boom")
  /\ fetch_user_latest_posts sample_strftime failing_client "alice" 10 "new"
     = ([Called (UserSubmissions New "alice" 10);
         LogError "An error occurred while fetching posts for alice: boom"],
        Ret "An error occurred while fetching posts for alice: boom").
Proof. repeat split; reflexivity. Qed.

(** C3 as stated fails: no marker of two characters gives the prefix of
    the node at depth 1. *)
Lemma C3_no_two_character_marker :
  ~ exists marker,
      String.length marker = 2
      /\ forall node depth, exists rest,
           _format_comment_tree node depth
           = str_mul marker depth ++ "* Author: " ++ rest.
Proof.
  intros (marker & Hl & H).
  destruct (H (Node plain_comment []) 1) as [rest E].
  destruct marker as [|a [|b [|c m]]]; try discriminate Hl.
  cbn in E. discriminate E.
Qed.

(** C4 as stated fails: the content of an unknown submission is printed
    as "None", not as nothing. *)
Lemma C4_unknown_content_printed :
  cls unknown_post = OtherPost
  /\ result (fetch_reddit_post_content (content_client unknown_post [])
               "abg" 20 3)
     = Ret ("Title: Hello" ++ LF ++ "Score: 42" ++ LF ++ "Author: alice" ++ LF
            ++ "Type: unknown" ++ LF ++ "Content: None" ++ LF
            ++ LF ++ "No comments found.")
  /\ fmt_optional (_get_content unknown_post) <> "".
Proof. repeat split; try reflexivity. discriminate. Qed.

Lemma C4_witness :
  _get_content unknown_post = None
  /\ _get_post_type unknown_post = "unknown".
Proof.
  destruct (C4_classification_total sample_strftime unknown_post)
    as (_ & _ & _ & _ & Hu & Hc).
  split.
  - apply Hc. reflexivity.
  - apply Hu. reflexivity.
Defined.



Lemma C6_witness :
  fetch_user_latest_posts sample_strftime bare_client "alice" 10 "hot"
  = ([Called (UserSubmissions Hot "alice" 10);
      Called (AccountSubmissions Hot "alice" 10);
      Called (SubredditSearch "all" "author:alice" "hot" 10)],
     Ret "Unable to access user posts API. RedditWarp API structure may have changed.").
Proof.
  apply (proj2 (C6_fallback_reaches_search sample_strftime bare_client
                  "alice" 10 "hot" Hot missing missing
                  eq_refl eq_refl eq_refl eq_refl eq_refl)
           missing eq_refl eq_refl).
Defined.

(** C7 as stated fails, twice.  One post is returned and the separator
    occurs twice, once in the body of the post.  And a call with a valid
    sort in which nothing raises and no post is yielded, the three paths
    answering [None], does not give the text on missing posts. *)
Lemma C7_separator_in_body :
  (exists text,
     result (fetch_user_latest_posts sample_strftime (serving [ruled_post])
               "alice" 10 "new") = Ret text
     /\ List.length (yielded (iter_of [ruled_post])) = 1
     /\ count_sep text = 2)
  /\ sort_mode "new" = Some New
  /\ fetch_user_latest_posts sample_strftime none_client "alice" 10 "new"
     = ([Called (UserSubmissions New "alice" 10);
         Called (AccountSubmissions New "alice" 10);
         Called (SubredditSearch "all" "author:alice" "new" 10)],
        Ret "Invalid sort method: new. Use 'new', 'hot', or 'top'.")
  /\ "Invalid sort method: new. Use 'new', 'hot', or 'top'."
     <> "No posts found for user: alice".
Proof.
  split; [eexists; repeat split|].
  repeat split. discriminate.
Qed.

Lemma C7_witness :
  (exists text,
     result (fetch_user_latest_posts sample_strftime
               (serving [text_post; link_post]) "alice" 10 "new") = Ret text
     /\ startswith text "Latest 2 posts from u/alice:" = true
     /\ count_sep text = 2)
  /\ result (fetch_user_latest_posts sample_strftime (account_serving [])
               "alice" 10 "top")
     = Ret "No posts found for user: alice".
Proof.
  split.
  - destruct (C7_user_posts_text sample_strftime
                (serving [text_post; link_post]) "alice" 10 "new" New
                (iter_of [text_post; link_post]) eq_refl
                (by_user (serving [text_post; link_post]) "alice" 10 "new"
                   New (iter_of [text_post; link_post]) eq_refl)
                eq_refl)
      as [_ H].
    destruct H as (Hr & Hs & Hc); [discriminate|].
    eexists. split; [exact Hr|]. split; [exact Hs|].
    apply Hc; [reflexivity|].
    repeat constructor; intros t Ht; reflexivity.
  - apply (proj1 (C7_user_posts_text sample_strftime (account_serving [])
                    "alice" 10 "top" Top Exhausted eq_refl
                    (by_account (account_serving []) "alice" 10 "top" Top
                       Exhausted
                       (or_intror (ex_intro _ missing
                                     (conj eq_refl eq_refl)))
                       eq_refl)
                    eq_refl)).
    reflexivity.
Defined.

(** C8 as stated fails: one post is listed, the separator occurs twice,
    and the block has no subreddit line. *)
Lemma C8_separator_in_body_no_subreddit :
  exists text,
    result (fetch_reddit_hot_threads (serving [ruled_post]) "rocq" 10)
    = Ret text
    /\ List.length (yielded (iter_of [ruled_post])) = 1
    /\ count_sep text = 2
    /\ occurrences "Subreddit" text = 0.
Proof. eexists. repeat split. Qed.

Lemma C8_witness :
  result (fetch_reddit_hot_threads (serving []) "rocq" 10) = Ret ""
  /\ exists text,
       result (fetch_reddit_hot_threads (serving [text_post; link_post])
                 "rocq" 10) = Ret text
       /\ count_sep text = 2.
Proof.
  split.
  - apply (C8_hot_threads_text (serving []) "rocq" 10 Exhausted
             eq_refl eq_refl).
  - destruct (C8_hot_threads_text (serving [text_post; link_post]) "rocq" 10
                (iter_of [text_post; link_post]) eq_refl eq_refl)
      as (Hr & _ & Hc & _).
    eexists. split; [exact Hr|]. apply Hc.
    repeat constructor.
Defined.

Lemma C9_witness :
  client_positional_args sample_env = ["s3cret"; "t0ken"]
  /\ client_positional_args (fun _ => None) = [].
Proof.
  split.
  - apply (proj1 (C9_credentials_in_order sample_env)).
  - apply (proj2 (proj2 (proj2 (C9_credentials_in_order (fun _ => None))))
             eq_refl eq_refl eq_refl).
Defined.

(** C10 as stated fails: the cancellation of the task, raised by the user
    path, is no AttributeError and ends the chain, but the outer handler
    does not take it: the operation returns no text. *)
Lemma C10_cancellation_propagates :
  is_AttributeError cancelled = false
  /\ fetch_user_latest_posts sample_strftime cancelling_client "alice" 10
       "new"
     = ([Called (UserSubmissions New "alice" 10)], Raise cancelled).
Proof. split; reflexivity. Qed.

Lemma C10_witness :
  fetch_user_latest_posts sample_strftime failing_client "alice" 10 "top"
  = ([Called (UserSubmissions Top "alice" 10);
      LogError "An error occurred while fetching posts for alice: boom"],
     Ret "An error occurred while fetching posts for alice: boom")
  /\ fetch_user_latest_posts sample_strftime account_failing "alice" 10 "top"
     = ([Called (UserSubmissions Top "alice" 10);
         Called (AccountSubmissions Top "alice" 10);
         LogError "An error occurred while fetching posts for alice: boom"],
        Ret "An error occurred while fetching posts for alice: boom").
Proof.
  split.
  - apply (proj1 (C10_other_exception_stops_chain sample_strftime
                    failing_client "alice" 10 "top" Top boom
                    eq_refl eq_refl)).
    reflexivity.
  - apply (proj2 (C10_other_exception_stops_chain sample_strftime
                    account_failing "alice" 10 "top" Top boom
                    eq_refl eq_refl)); reflexivity.
Defined.

(** * Further properties of the operations *)

(** ** Comment rendering *)

Lemma CommentNode_ind' (P : CommentNode -> Prop) :
  (forall v ch, Forall P ch -> P (Node v ch)) -> forall n, P n.
Proof.
  intros H. fix IH 1. intros [v ch]. apply H.
  induction ch as [|c ch IHch]; constructor; [apply IH | exact IHch].
Qed.

Lemma newlines_app (a b : string) :
  newlines (a ++ b) = newlines a + newlines b.
Proof.
  induction a as [|c a IH]; [reflexivity|].
  cbn [append newlines]. rewrite IH. lia.
Qed.

Lemma newlines_str_mul (d : nat) : newlines (str_mul "-- " d) = 0.
Proof.
  induction d as [|d IH]; [reflexivity|].
  cbn [str_mul]. now rewrite newlines_app, IH.
Qed.

Lemma newlines_uint (d : Decimal.uint) :
  newlines (NilEmpty.string_of_uint d) = 0.
Proof. induction d; cbn [NilEmpty.string_of_uint newlines]; auto. Qed.

Lemma newlines_str_int (z : Z) : newlines (str_int z) = 0.
Proof.
  assert (H : forall d, newlines (NilZero.string_of_uint d) = 0).
  { intros d. destruct d; try reflexivity; apply (newlines_uint (_ _)). }
  unfold str_int, NilZero.string_of_int.
  destruct (Z.to_int z) as [d|d]; [apply H|].
  cbn [newlines]. now rewrite H.
Qed.

Lemma flat_cons (x : string) (l : list string) : flat (x :: l) = x ++ flat l.
Proof. reflexivity. Qed.

Lemma list_sum_cons (x : nat) (l : list nat) :
  list_sum (x :: l) = x + list_sum l.
Proof. reflexivity. Qed.

Lemma format_comment_tree_unfold (v : comment.t) (ch : list CommentNode)
    (depth : nat) :
  _format_comment_tree (Node v ch) depth
  = own_lines "-- " v depth
    ++ flat (map (fun child => LF ++ _format_comment_tree child (S depth)) ch).
Proof.
  cbn [_format_comment_tree value].
  rewrite (fold_left_append
             (fun child => _format_comment_tree child (S depth))).
  unfold own_lines. now rewrite !append_assoc.
Qed.

(** The rendering of a tree has, per comment, its three lines and the
    empty line in front of it, the first comment having none: four line
    feeds a comment less one, plus those the authors and bodies carry.
    Every comment of the tree is rendered, at whatever depth. *)
Theorem format_comment_tree_newlines (n : CommentNode) (depth : nat) :
  newlines (_format_comment_tree n depth) + 1
  = 4 * size n + field_newlines n.
Proof.
  revert depth. induction n as [v ch IH] using CommentNode_ind'.
  intros depth. rewrite format_comment_tree_unfold.
  assert (E : forall l, Forall (fun c => forall d,
                newlines (_format_comment_tree c d) + 1
                = 4 * size c + field_newlines c) l ->
              newlines (flat (map (fun child =>
                          LF ++ _format_comment_tree child (S depth)) l))
              = 4 * list_sum (map size l)
                + list_sum (map field_newlines l)).
  { induction 1 as [|c l Hc Hl IHl]; [reflexivity|].
    cbn [map]. rewrite flat_cons, !list_sum_cons.
    rewrite !newlines_app, IHl. specialize (Hc (S depth)).
    change (newlines LF) with 1. lia. }
  rewrite newlines_app, (E ch IH). unfold own_lines.
  rewrite !newlines_app, !newlines_str_mul, newlines_str_int.
  change (newlines LF) with 1.
  change (newlines "* Author: ") with 0.
  change (newlines "  Score: ") with 0.
  change (newlines "  ") with 0.
  cbn [size field_newlines]. cbn [comment.author_display_name]. lia.
Qed.

Lemma format_comment_tree_prefix (n : CommentNode) (d : nat) :
  startswith (_format_comment_tree n d) (str_mul "-- " d ++ "* Author: ")
  = true.
Proof.
  destruct n as [v ch]. rewrite format_comment_tree_unfold.
  unfold own_lines. rewrite !append_assoc.
  replace (str_mul "-- " d ++ "* Author: "
           ++ str_or (comment.author_display_name v) "[deleted]" ++ LF
           ++ str_mul "-- " d ++ "  Score: "
           ++ str_int (comment.score v) ++ LF
           ++ str_mul "-- " d ++ "  " ++ comment.body v ++ LF
           ++ flat (map (fun child =>
                           LF ++ _format_comment_tree child (S d)) ch))
    with ((str_mul "-- " d ++ "* Author: ")
          ++ str_or (comment.author_display_name v) "[deleted]" ++ LF
          ++ str_mul "-- " d ++ "  Score: "
          ++ str_int (comment.score v) ++ LF
          ++ str_mul "-- " d ++ "  " ++ comment.body v ++ LF
          ++ flat (map (fun child =>
                          LF ++ _format_comment_tree child (S d)) ch))
    by now rewrite !append_assoc.
  apply startswith_app.
Qed.

(** A rendering begins with the prefix of its depth and the author label;
    at depth 0, where the top-level comments are rendered, it begins with
    the label itself, no dash before it. *)
Theorem format_comment_tree_starts (n : CommentNode) (depth : nat) :
  startswith (_format_comment_tree n depth)
    (str_mul "-- " depth ++ "* Author: ") = true
  /\ startswith (_format_comment_tree n 0) "* Author: " = true.
Proof.
  split; [apply format_comment_tree_prefix
         | apply (format_comment_tree_prefix n 0)].
Qed.

(** ** Traces *)

Lemma logged_app (a b : list event) :
  logged (a ++ b) = (logged a ++ logged b)%list.
Proof.
  induction a as [|[c| |msg] a IH]; cbn; [reflexivity| | |];
    now rewrite IH.
Qed.

Lemma logged_repeat_Next (n : nat) : logged (repeat Next n) = [].
Proof. induction n; [reflexivity | assumption]. Qed.

Lemma calls_app (a b : list event) :
  calls (a ++ b) = (calls a ++ calls b)%list.
Proof.
  induction a as [|[c| |msg] a IH]; cbn; [reflexivity| | |];
    now rewrite IH.
Qed.

Lemma calls_repeat_Next (n : nat) : calls (repeat Next n) = [].
Proof. induction n; [reflexivity | assumption]. Qed.

Section FetcherTraces.

Context {datetime : Type} (strftime_utc : datetime -> string).

Local Abbreviation Submission := (Submission datetime).
Local Abbreviation aiter := (aiter datetime).
Local Abbreviation Client := (Client datetime).

(** *** [fetch_reddit_post_content] *)

(** A post without top-level comments: the submission is fetched, then its
    comment tree, sorted by "top" and with the caller's limit and depth
    passed on as they are; the text is the header, an empty line and "No
    comments found."; nothing is logged. *)
Theorem post_content_without_comments (client : Client) (post_id : string)
    (comment_limit comment_depth : Z) (s : Submission) :
  submission_fetch client post_id = Ret s ->
  comment_tree_fetch client post_id "top" comment_limit comment_depth
  = Ret {| tree_children := [] |} ->
  fetch_reddit_post_content client post_id comment_limit comment_depth
  = ([Called (SubmissionFetch post_id);
      Called (CommentTreeFetch post_id "top" comment_limit comment_depth)],
     Ret (post_header s ++ LF ++ "No comments found.")).
Proof.
  intros Hs Hc.
  unfold fetch_reddit_post_content, fetch_reddit_post_content_body.
  now rewrite Hs, Hc.
Qed.

(** A post with top-level comments: after the header come an empty line,
    the line "Comments:", and the rendering at depth 0 of every top-level
    comment in order, each preceded by an empty line and each beginning
    with the author label. *)
Theorem post_content_with_comments (client : Client) (post_id : string)
    (comment_limit comment_depth : Z) (s : Submission)
    (comments : list CommentNode) :
  submission_fetch client post_id = Ret s ->
  comment_tree_fetch client post_id "top" comment_limit comment_depth
  = Ret {| tree_children := comments |} ->
  comments <> [] ->
  result (fetch_reddit_post_content client post_id comment_limit
            comment_depth)
  = Ret (post_header s ++ LF ++ "Comments:" ++ LF
         ++ flat (map (fun comment => LF ++ _format_comment_tree comment 0)
                    comments))
  /\ Forall (fun block => startswith block (LF ++ "* Author: ") = true)
       (map (fun comment => LF ++ _format_comment_tree comment 0) comments).
Proof.
  intros Hs Hc Hne. split.
  - unfold fetch_reddit_post_content, fetch_reddit_post_content_body.
    rewrite Hs, Hc. destruct comments as [|c l]; [congruence|].
    cbn [call bind try_except tree_children result snd ret app].
    rewrite (fold_left_append (fun comment => _format_comment_tree comment 0)).
    now rewrite !append_assoc.
  - apply Forall_forall. intros block Hb. apply in_map_iff in Hb.
    destruct Hb as (c & <- & _).
    change (LF ++ _format_comment_tree c 0)
      with (String (ascii_of_nat 10) (_format_comment_tree c 0)).
    change (LF ++ "* Author: ")
      with (String (ascii_of_nat 10) "* Author: ").
    rewrite startswith_cons, Ascii.eqb_refl.
    apply (format_comment_tree_prefix c 0).
Qed.

(** The two fetches are made one after the other: when the submission
    fetch raises, the comment tree is not fetched; when the comment tree
    fetch raises, the header already built is dropped.  Either way an
    exception that derives from [Exception] gives the text "An error
    occurred: <message>", and any other one leaves the operation. *)
Theorem post_content_fetch_failures (client : Client) (post_id : string)
    (comment_limit comment_depth : Z) (e : exn) :
  (submission_fetch client post_id = Raise e ->
   fetch_reddit_post_content client post_id comment_limit comment_depth
   = ([Called (SubmissionFetch post_id)],
      if is_Exception e then Ret ("An error occurred: " ++ exn_str e)
      else Raise e))
  /\ (forall s,
        submission_fetch client post_id = Ret s ->
        comment_tree_fetch client post_id "top" comment_limit comment_depth
        = Raise e ->
        fetch_reddit_post_content client post_id comment_limit comment_depth
        = ([Called (SubmissionFetch post_id);
            Called (CommentTreeFetch post_id "top" comment_limit
                      comment_depth)],
           if is_Exception e then Ret ("An error occurred: " ++ exn_str e)
           else Raise e)).
Proof.
  unfold fetch_reddit_post_content, fetch_reddit_post_content_body.
  split.
  - intros ->. cbn. now destruct (is_Exception e).
  - intros s -> Hc. rewrite Hc. cbn. now destruct (is_Exception e).
Qed.

(** [fetch_reddit_post_content] never logs and makes at most two calls on
    the client, the submission fetch first. *)
Theorem post_content_never_logs (client : Client) (post_id : string)
    (comment_limit comment_depth : Z) :
  let t := trace (fetch_reddit_post_content client post_id comment_limit
                    comment_depth) in
  logged t = []
  /\ (calls t = [SubmissionFetch post_id]
      \/ calls t = [SubmissionFetch post_id;
                    CommentTreeFetch post_id "top" comment_limit
                      comment_depth]).
Proof.
  unfold fetch_reddit_post_content, fetch_reddit_post_content_body.
  destruct (submission_fetch client post_id) as [s|e];
    [|cbn; destruct (is_Exception e); cbn; auto].
  destruct (comment_tree_fetch client post_id "top" comment_limit
              comment_depth) as [[[|c l]]|e]; cbn; auto.
  destruct (is_Exception e); cbn; auto.
Qed.

(** *** [fetch_user_latest_posts] *)

Lemma body_of_iterator (client : Client) (username : string) (limit : Z)
    (sort : string) (tr : list event) (it : aiter) :
  obtain_submission_iter client username limit sort
  = (tr, Ret (inr (Some it))) ->
  fetch_user_latest_posts_body strftime_utc client username limit sort
  = ((tr ++ repeat Next (S (List.length (yielded it))))%list,
     match fault it with
     | Some e => Raise e
     | None =>
         match map (user_post_info strftime_utc) (yielded it) with
         | [] => Ret ("No posts found for user: " ++ username)
         | posts =>
             Ret ("Latest " ++ str_len posts ++ " posts from u/" ++ username
                  ++ ":" ++ LF ++ LF ++ join (LF ++ LF) posts)
         end
     end).
Proof.
  intros Ho. unfold fetch_user_latest_posts_body. rewrite Ho.
  unfold bind at 1. rewrite async_for_spec. cbn [app].
  destruct (fault it) as [e|]; [reflexivity|].
  unfold bind. destruct (map _ (yielded it)); cbn; now rewrite ?app_nil_r.
Qed.

(** The first path that answers is the one used.  With a valid sort and a
    user path that returns an iterator, the account path and the search are
    not called: the only call is the user listing, and the iterator is
    advanced once more than it yields. *)
Theorem user_path_is_used_first (client : Client) (username : string)
    (limit : Z) (sort : string) (m : SortMode) (it : aiter) :
  sort_mode sort = Some m ->
  user_pull_submissions client m username limit = Ret (Some it) ->
  obtain_submission_iter client username limit sort
  = ([Called (UserSubmissions m username limit)], Ret (inr (Some it)))
  /\ calls (trace (fetch_user_latest_posts strftime_utc client username
                     limit sort))
     = [UserSubmissions m username limit]
  /\ (fault it = None ->
      trace (fetch_user_latest_posts strftime_utc client username limit sort)
      = Called (UserSubmissions m username limit)
        :: repeat Next (S (List.length (yielded it)))).
Proof.
  intros Hm Hu.
  assert (Ho : obtain_submission_iter client username limit sort
               = ([Called (UserSubmissions m username limit)],
                  Ret (inr (Some it)))).
  { unfold obtain_submission_iter.
    now rewrite (method1_valid _ _ _ _ _ Hm), Hu. }
  split; [exact Ho|]. unfold fetch_user_latest_posts.
  rewrite (body_of_iterator _ _ _ _ _ _ Ho). split.
  - destruct (fault it) as [e|]; [|destruct (map _ (yielded it))];
      cbn [try_except ret bind emit app];
      try destruct (is_Exception e);
      cbn [trace fst app calls];
      rewrite ?calls_app, ?calls_repeat_Next; reflexivity.
  - intros ->. now destruct (map _ (yielded it)).
Qed.

(** When the user path is missing (AttributeError) or answers [None], and
    the account path returns an iterator, that iterator is used and the
    search is not called. *)
Theorem account_path_is_used_second (client : Client) (username : string)
    (limit : Z) (sort : string) (m : SortMode) (it : aiter) :
  sort_mode sort = Some m ->
  method1 client username limit sort
  = ([Called (UserSubmissions m username limit)], Ret None) ->
  account_pull_submissions client m username limit = Ret (Some it) ->
  obtain_submission_iter client username limit sort
  = ([Called (UserSubmissions m username limit);
      Called (AccountSubmissions m username limit)],
     Ret (inr (Some it))).
Proof.
  intros Hm H1 H2. unfold obtain_submission_iter.
  now rewrite H1, (method2_valid _ _ _ _ _ Hm), H2.
Qed.

(** A path that answers [None] is passed over like a missing one.  When
    all three answer [None], the text on the invalid sort is returned,
    although the sort is a valid one. *)
Theorem none_answers_give_invalid_sort_text (client : Client)
    (username : string) (limit : Z) (sort : string) (m : SortMode) :
  sort_mode sort = Some m ->
  user_pull_submissions client m username limit = Ret None ->
  account_pull_submissions client m username limit = Ret None ->
  subreddit_pull_search client "all" ("author:" ++ username) sort limit
  = Ret None ->
  fetch_user_latest_posts strftime_utc client username limit sort
  = ([Called (UserSubmissions m username limit);
      Called (AccountSubmissions m username limit);
      Called (SubredditSearch "all" ("author:" ++ username) sort limit)],
     Ret (invalid_sort_text sort)).
Proof.
  intros Hm H1 H2 H3.
  unfold fetch_user_latest_posts, fetch_user_latest_posts_body,
    obtain_submission_iter, method3.
  now rewrite (method1_valid _ _ _ _ _ Hm), (method2_valid _ _ _ _ _ Hm),
    H1, H2, H3.
Qed.

(** With a sort that names no mode, the text "Invalid sort method:
    <sort>. Use 'new', 'hot', or 'top'." is returned exactly when the search
    answers [None]. *)
Theorem invalid_sort_text_iff_search_none (client : Client)
    (username : string) (limit : Z) (sort : string) :
  sort_mode sort = None ->
  result (fetch_user_latest_posts strftime_utc client username limit sort)
  = Ret ("Invalid sort method: " ++ sort ++ ". Use 'new', 'hot', or 'top'.")
  <-> subreddit_pull_search client "all" ("author:" ++ username) sort limit
      = Ret None.
Proof.
  intros Hs.
  unfold fetch_user_latest_posts, fetch_user_latest_posts_body.
  rewrite (obtain_invalid_sort _ _ _ _ Hs). unfold method3.
  destruct (subreddit_pull_search client "all" ("author:" ++ username)
              sort limit) as [[it|]|e] eqn:E.
  - cbn [call bind ret try_except app]. rewrite async_for_spec.
    unfold user_error_text.
    destruct (fault it) as [e|]; [|destruct (yielded it) as [|s l]];
      cbn [map app bind ret try_except result snd emit append];
      try match goal with
        | |- context [is_Exception ?x] => destruct (is_Exception x)
        end;
      cbn [map app bind ret try_except result snd emit append];
      split; intros H; discriminate H.
  - cbn. tauto.
  - unfold user_error_text, unable_text.
    cbn [call bind ret try_except app].
    destruct (is_AttributeError e);
      cbn [map app bind ret try_except result snd emit append];
      try match goal with
        | |- context [is_Exception ?x] => destruct (is_Exception x)
        end;
      cbn [map app bind ret try_except result snd emit append];
      split; intros H; discriminate H.
Qed.

(** An exception raised while the iterator is advanced, AttributeError
    included, starts no fallback and the posts yielded before it are
    dropped.  When it derives from [Exception], the text "An error occurred
    while fetching posts for <username>: <message>" is logged and returned;
    otherwise it leaves the operation, nothing logged. *)
Theorem user_posts_iteration_fault (client : Client) (username : string)
    (limit : Z) (sort : string) (tr : list event) (it : aiter) (e : exn) :
  obtain_submission_iter client username limit sort
  = (tr, Ret (inr (Some it))) ->
  fault it = Some e ->
  let text :=
    "An error occurred while fetching posts for " ++ username ++ ": "
    ++ exn_str e in
  fetch_user_latest_posts strftime_utc client username limit sort
  = if is_Exception e
    then ((tr ++ repeat Next (S (List.length (yielded it)))
              ++ [LogError text])%list,
          Ret text)
    else ((tr ++ repeat Next (S (List.length (yielded it))))%list, Raise e).
Proof.
  intros Ho Hf text. unfold fetch_user_latest_posts.
  rewrite (body_of_iterator _ _ _ _ _ _ Ho), Hf.
  cbn [try_except bind emit ret app].
  destruct (is_Exception e); [now rewrite <- app_assoc | reflexivity].
Qed.

Lemma obtain_logs_nothing (client : Client) (username : string) (limit : Z)
    (sort : string) :
  logged (trace (obtain_submission_iter client username limit sort)) = [].
Proof.
  unfold obtain_submission_iter, method1, method2, method3.
  destruct (sort =? "new"); [|destruct (sort =? "hot");
                               [|destruct (sort =? "top")]];
    repeat match goal with
      | |- context [user_pull_submissions ?c ?m ?u ?l] =>
          destruct (user_pull_submissions c m u l) as [[?|]|?]
      | |- context [account_pull_submissions ?c ?m ?u ?l] =>
          destruct (account_pull_submissions c m u l) as [[?|]|?]
      | |- context [subreddit_pull_search ?c ?a ?q ?s ?l] =>
          destruct (subreddit_pull_search c a q s l) as [[?|]|?]
      | |- context [is_AttributeError ?e] => destruct (is_AttributeError e)
      | _ => progress cbn [call bind ret try_except app]
      end;
    reflexivity.
Qed.

Lemma body_logs_nothing (client : Client) (username : string) (limit : Z)
    (sort : string) :
  logged (trace (fetch_user_latest_posts_body strftime_utc client username
                   limit sort)) = [].
Proof.
  pose proof (obtain_logs_nothing client username limit sort) as H.
  destruct (obtain_submission_iter client username limit sort)
    as [tr [[text|[it|]]|e]] eqn:Ho.
  - unfold fetch_user_latest_posts_body. rewrite Ho. cbn in *.
    now rewrite app_nil_r.
  - rewrite (body_of_iterator _ _ _ _ _ _ Ho). cbn [trace fst] in *.
    now rewrite logged_app, H, (logged_repeat_Next (S _)).
  - unfold fetch_user_latest_posts_body. rewrite Ho. cbn in *.
    now rewrite app_nil_r.
  - unfold fetch_user_latest_posts_body. now rewrite Ho.
Qed.

(** [fetch_user_latest_posts] logs at most one record, and only the text
    of the outer handler, which is then the text it returns: a listing, the
    text on missing posts, on the invalid sort or on the inaccessible API
    is never logged. *)
Theorem user_posts_logs_what_it_returns (client : Client) (username : string)
    (limit : Z) (sort : string) :
  let r := fetch_user_latest_posts strftime_utc client username limit sort in
  logged (trace r) = []
  \/ exists e, logged (trace r) = [user_error_text username e]
               /\ result r = Ret (user_error_text username e).
Proof.
  pose proof (body_logs_nothing client username limit sort) as H.
  unfold fetch_user_latest_posts.
  destruct (fetch_user_latest_posts_body strftime_utc client username limit
              sort) as [tr [text|e]]; cbn [trace fst] in H.
  - left. exact H.
  - cbn [try_except]. destruct (is_Exception e).
    + right. exists e. cbn. now rewrite logged_app, H.
    + left. exact H.
Qed.

(** *** [fetch_reddit_hot_threads] *)

(** The hot listing has one access path and no fallback: an exception
    raised by the call or while the listing is iterated ends the
    operation, and the posts yielded before it are dropped.  When the
    exception derives from [Exception], AttributeError included, the text
    "An error occurred: <message>" is logged once and returned; otherwise
    the exception leaves the operation, nothing logged. *)
Theorem hot_threads_faults (client : Client) (subreddit : string)
    (limit : Z) (e : exn) :
  let text := "An error occurred: " ++ exn_str e in
  (subreddit_pull_hot client subreddit limit = Raise e ->
   fetch_reddit_hot_threads client subreddit limit
   = if is_Exception e
     then ([Called (SubredditHot subreddit limit); LogError text], Ret text)
     else ([Called (SubredditHot subreddit limit)], Raise e))
  /\ (forall it,
        subreddit_pull_hot client subreddit limit = Ret it ->
        fault it = Some e ->
        fetch_reddit_hot_threads client subreddit limit
        = if is_Exception e
          then ((Called (SubredditHot subreddit limit)
                 :: repeat Next (S (List.length (yielded it)))
                 ++ [LogError text])%list,
                Ret text)
          else (Called (SubredditHot subreddit limit)
                :: repeat Next (S (List.length (yielded it))),
                Raise e)).
Proof.
  intros text.
  unfold fetch_reddit_hot_threads, fetch_reddit_hot_threads_body. split.
  - intros ->. cbn. now destruct (is_Exception e).
  - intros it -> Hf. unfold call, bind at 1.
    rewrite async_for_spec, Hf. cbn [app try_except bind].
    destruct (is_Exception e); reflexivity.
Qed.

(** Without a fault the hot listing makes its one call, advances the
    iterator once more than it yields, and logs nothing. *)
Theorem hot_threads_trace (client : Client) (subreddit : string)
    (limit : Z) (it : aiter) :
  subreddit_pull_hot client subreddit limit = Ret it ->
  fault it = None ->
  trace (fetch_reddit_hot_threads client subreddit limit)
  = Called (SubredditHot subreddit limit)
    :: repeat Next (S (List.length (yielded it))).
Proof.
  intros Hc Hf.
  unfold fetch_reddit_hot_threads, fetch_reddit_hot_threads_body.
  rewrite Hc. unfold call, bind at 1. rewrite async_for_spec, Hf.
  cbn. now rewrite app_nil_r.
Qed.

(** *** The end of a listing *)

Lemma join_ends (sep : string) (f : Submission -> string) (tail : string)
    (l : list Submission) :
  (forall s, exists pre, f s = pre ++ tail) ->
  l <> [] ->
  exists pre, join sep (map f l) = pre ++ tail.
Proof.
  intros Hf. induction l as [|x [|y l] IH]; intros Hne; [congruence| |].
  - cbn. apply Hf.
  - destruct IH as [pre E]; [discriminate|].
    exists (f x ++ sep ++ pre).
    change (join sep (map f (x :: y :: l)))
      with (f x ++ sep ++ join sep (map f (y :: l))).
    now rewrite E, !append_assoc.
Qed.

(** A listing of at least one post ends with the separator of its last
    block: nothing, no line feed either, comes after it. *)
Theorem listings_end_with_separator (client : Client) (name : string)
    (limit : Z) (it : aiter) :
  fault it = None ->
  yielded it <> [] ->
  (subreddit_pull_hot client name limit = Ret it ->
   exists pre,
     result (fetch_reddit_hot_threads client name limit)
     = Ret (pre ++ "---"))
  /\ (forall sort tr,
        obtain_submission_iter client name limit sort
        = (tr, Ret (inr (Some it))) ->
        exists pre,
          result (fetch_user_latest_posts strftime_utc client name limit
                    sort)
          = Ret (pre ++ "---")).
Proof.
  intros Hf Hne. split.
  - intros Hc.
    destruct (join_ends (LF ++ LF) hot_post_info "---" (yielded it))
      as [pre E]; [|assumption|].
    { intros s. eexists. unfold hot_post_info.
      rewrite <- !append_assoc. reflexivity. }
    exists pre. rewrite <- E.
    unfold fetch_reddit_hot_threads, fetch_reddit_hot_threads_body.
    rewrite Hc. unfold call, bind at 1. rewrite async_for_spec, Hf.
    reflexivity.
  - intros sort tr Ho.
    destruct (join_ends (LF ++ LF) (user_post_info strftime_utc) "---"
                (yielded it)) as [pre E]; [|assumption|].
    { intros s. eexists. unfold user_post_info.
      rewrite <- !append_assoc. reflexivity. }
    unfold fetch_user_latest_posts.
    rewrite (body_of_iterator _ _ _ _ _ _ Ho), Hf.
    destruct (yielded it) as [|s l] eqn:Ey; [congruence|].
    cbn [map] in *. cbn [try_except result snd].
    rewrite E. eexists. rewrite <- !append_assoc. reflexivity.
Qed.

End FetcherTraces.

(** ** Credentials, positionally *)

(** The arguments are passed by position, not by name: when the client id
    is unset or empty and the secret is set, the secret is the first
    argument the constructor receives. *)
Theorem missing_id_shifts_secret (env : environ) (secret : string) :
  truthy (env "REDDIT_CLIENT_ID") = false ->
  env "REDDIT_CLIENT_SECRET" = Some secret ->
  secret <> "" ->
  hd_error (client_positional_args env) = Some secret
  /\ List.length (client_positional_args env) <= 2.
Proof.
  intros Hid Hs Hne.
  unfold client_positional_args, CREDS, REDDIT_CLIENT_ID,
    REDDIT_CLIENT_SECRET, REDDIT_REFRESH_TOKEN, getenv.
  rewrite !keep_truthy_cons, Hs.
  destruct (env "REDDIT_CLIENT_ID") as [[|c i]|]; try discriminate Hid;
    destruct secret as [|c' s']; try congruence;
    destruct (env "REDDIT_REFRESH_TOKEN") as [[|c'' t]|]; cbn; auto.
Qed.

(** ** The further properties on sample inputs *)

Lemma missing_id_shifts_secret_witness :
  hd_error (client_positional_args sample_env) = Some "s3cret"
  /\ List.length (client_positional_args sample_env) <= 2.
Proof.
  apply (missing_id_shifts_secret sample_env "s3cret" eq_refl eq_refl).
  discriminate.
Defined.

Lemma post_content_without_comments_witness :
  fetch_reddit_post_content (content_client text_post []) "abc" 20 3
  = ([Called (SubmissionFetch "abc");
      Called (CommentTreeFetch "abc" "top" 20 3)],
     Ret (post_header text_post ++ LF ++ "No comments found.")).
Proof.
  apply (post_content_without_comments (content_client text_post [])
           "abc" 20 3 text_post eq_refl eq_refl).
Defined.

Lemma post_content_with_comments_witness :
  result (fetch_reddit_post_content (content_client text_post thread)
            "abc" 20 3)
  = Ret (post_header text_post ++ LF ++ "Comments:" ++ LF
         ++ flat (map (fun comment => LF ++ _format_comment_tree comment 0)
                    thread)).
Proof.
  apply (post_content_with_comments (content_client text_post thread)
           "abc" 20 3 text_post thread eq_refl eq_refl).
  discriminate.
Defined.

Lemma post_content_fetch_failures_witness :
  fetch_reddit_post_content failing_client "abc" 20 3
  = ([Called (SubmissionFetch "abc")], Ret "An error occurred: boom")
  /\ fetch_reddit_post_content (breaking_client boom) "abc" 20 3
     = ([Called (SubmissionFetch "abc");
         Called (CommentTreeFetch "abc" "top" 20 3)],
        Ret "An error occurred: boom")
  /\ fetch_reddit_post_content (breaking_client cancelled) "abc" 20 3
     = ([Called (SubmissionFetch "abc");
         Called (CommentTreeFetch "abc" "top" 20 3)],
        Raise cancelled).
Proof.
  split; [|split].
  - apply (proj1 (post_content_fetch_failures failing_client "abc" 20 3
                    boom)).
    reflexivity.
  - apply (proj2 (post_content_fetch_failures (breaking_client boom) "abc"
                    20 3 boom) text_post); reflexivity.
  - apply (proj2 (post_content_fetch_failures (breaking_client cancelled)
                    "abc" 20 3 cancelled) text_post); reflexivity.
Defined.

Lemma user_path_is_used_first_witness :
  calls (trace (fetch_user_latest_posts sample_strftime
                  (serving [text_post]) "alice" 10 "new"))
  = [UserSubmissions New "alice" 10].
Proof.
  apply (user_path_is_used_first sample_strftime (serving [text_post])
           "alice" 10 "new" New (iter_of [text_post]) eq_refl eq_refl).
Defined.

Lemma account_path_is_used_second_witness :
  obtain_submission_iter (account_serving [text_post]) "alice" 10 "hot"
  = ([Called (UserSubmissions Hot "alice" 10);
      Called (AccountSubmissions Hot "alice" 10)],
     Ret (inr (Some (iter_of [text_post])))).
Proof.
  apply (account_path_is_used_second (account_serving [text_post])
           "alice" 10 "hot" Hot (iter_of [text_post])
           eq_refl eq_refl eq_refl).
Defined.

Lemma none_answers_give_invalid_sort_text_witness :
  result (fetch_user_latest_posts sample_strftime none_client "alice" 10
            "new")
  = Ret "Invalid sort method: new. Use 'new', 'hot', or 'top'.".
Proof.
  apply (f_equal snd
           (none_answers_give_invalid_sort_text sample_strftime none_client
              "alice" 10 "new" New eq_refl eq_refl eq_refl eq_refl)).
Defined.

Lemma invalid_sort_text_iff_search_none_witness :
  result (fetch_user_latest_posts sample_strftime none_client "alice" 10
            "best")
  = Ret "Invalid sort method: best. Use 'new', 'hot', or 'top'.".
Proof.
  apply (proj2 (invalid_sort_text_iff_search_none sample_strftime
                  none_client "alice" 10 "best" eq_refl)).
  reflexivity.
Defined.

Lemma user_posts_iteration_fault_witness :
  fetch_user_latest_posts sample_strftime (breaking_client missing)
    "alice" 10 "new"
  = ([Called (UserSubmissions New "alice" 10); Next; Next;
      LogError "An error occurred while fetching posts for alice: object has no attribute"],
     Ret "An error occurred while fetching posts for alice: object has no attribute")
  /\ fetch_user_latest_posts sample_strftime (breaking_client cancelled)
       "alice" 10 "new"
     = ([Called (UserSubmissions New "alice" 10); Next; Next],
        Raise cancelled).
Proof.
  split.
  - apply (user_posts_iteration_fault sample_strftime
             (breaking_client missing) "alice" 10 "new"
             [Called (UserSubmissions New "alice" 10)] (breaking missing)
             missing eq_refl eq_refl).
  - apply (user_posts_iteration_fault sample_strftime
             (breaking_client cancelled) "alice" 10 "new"
             [Called (UserSubmissions New "alice" 10)] (breaking cancelled)
             cancelled eq_refl eq_refl).
Defined.

Lemma hot_threads_faults_witness :
  fetch_reddit_hot_threads bare_client "rocq" 10
  = ([Called (SubredditHot "rocq" 10);
      LogError "An error occurred: object has no attribute"],
     Ret "An error occurred: object has no attribute")
  /\ fetch_reddit_hot_threads (breaking_client boom) "rocq" 10
     = ([Called (SubredditHot "rocq" 10); Next; Next;
         LogError "An error occurred: boom"],
        Ret "An error occurred: boom")
  /\ fetch_reddit_hot_threads cancelling_client "rocq" 10
     = ([Called (SubredditHot "rocq" 10)], Raise cancelled).
Proof.
  split; [|split].
  - apply (proj1 (hot_threads_faults bare_client "rocq" 10 missing)).
    reflexivity.
  - apply (proj2 (hot_threads_faults (breaking_client boom) "rocq" 10 boom)
             (breaking boom)); reflexivity.
  - apply (proj1 (hot_threads_faults cancelling_client "rocq" 10 cancelled)).
    reflexivity.
Defined.

Lemma hot_threads_trace_witness :
  trace (fetch_reddit_hot_threads (serving [text_post; link_post]) "rocq" 10)
  = [Called (SubredditHot "rocq" 10); Next; Next; Next].
Proof.
  apply (hot_threads_trace (serving [text_post; link_post]) "rocq" 10
           (iter_of [text_post; link_post]) eq_refl eq_refl).
Defined.

Lemma listings_end_with_separator_witness :
  exists pre,
    result (fetch_reddit_hot_threads (serving [text_post]) "rocq" 10)
    = Ret (pre ++ "---").
Proof.
  apply (proj1 (listings_end_with_separator sample_strftime
                  (serving [text_post]) "rocq" 10 (iter_of [text_post])
                  eq_refl ltac:(discriminate))).
  reflexivity.
Defined.
